(** * OrChat: the chat client's pure core, embedded and verified

    The development follows the Python sources module by module:

    - [PyStr]     the [str] operations the code calls ([in], [split(sep, 1)],
                  [strip], [startswith]) and the two regular-expression calls
                  of [stream_response];
    - [Json]      values produced by [json.loads] / [response.json()] with the
                  duck-typed accesses the code performs on them;
    - [Utils]     [count_tokens] of utils.py and of src/utils/text_utils.py;
    - [Config]    [encrypt_api_key] / [decrypt_api_key] of config.py;
    - [ApiClient] [get_models_by_capability] of api_client.py;
    - [Chat]      [stream_response], [manage_context_window] and the
                  message-sending part of [chat_with_model] of chat.py.

    A Python [str] is a Rocq [string], one [ascii] per character; a Python
    [int] is a [Z].  Whatever lives outside the repository (tiktoken, Fernet,
    [json.loads], [float], the network) is a [Variable] of the section that
    uses it. *)

From Stdlib Require Import String Ascii List ZArith Lia Bool DecimalString.
Import ListNotations.

Local Open Scope string_scope.
Local Open Scope Z_scope.
Set Warnings "-register-all,-abstract-large-number".

(* ------------------------------------------------------------------ *)
(** ** Python string operations *)

Module PyStr.

(** [s[n:]] *)
Fixpoint drop (n : nat) (s : string) : string :=
  match n, s with
  | O, _ => s
  | S _, EmptyString => EmptyString
  | S k, String _ s' => drop k s'
  end.

(** [s.startswith(p)] *)
Definition startswith (p s : string) : bool := String.prefix p s.

(** [s.partition(sep)] when [sep] occurs in [s]: the text before the first
    occurrence and the text after it; [None] when [sep] does not occur.
    [s.split(sep, 1)] is then [[before, after]]. *)
Fixpoint split1 (sep s : string) : option (string * string) :=
  if String.prefix sep s then Some (EmptyString, drop (String.length sep) s)
  else match s with
       | EmptyString => None
       | String c s' =>
           match split1 sep s' with
           | Some (before, after) => Some (String c before, after)
           | None => None
           end
       end.

(** [sep in s] *)
Definition contains (sep s : string) : bool :=
  match split1 sep s with Some _ => true | None => false end.

(** [c.isspace()] for the characters below 256: TAB..CR, FS..US, space,
    NEL and NBSP. *)
Definition isspace (c : ascii) : bool :=
  let n := nat_of_ascii c in
  ((9 <=? n) && (n <=? 13))%nat || ((28 <=? n) && (n <=? 32))%nat
  || (n =? 133)%nat || (n =? 160)%nat.

Fixpoint lstrip (s : string) : string :=
  match s with
  | EmptyString => EmptyString
  | String c s' => if isspace c then lstrip s' else s
  end.

Fixpoint rstrip (s : string) : string :=
  match s with
  | EmptyString => EmptyString
  | String c s' =>
      match rstrip s' with
      | EmptyString => if isspace c then EmptyString else String c EmptyString
      | r => String c r
      end
  end.

(** [s.strip()] *)
Definition strip (s : string) : string := rstrip (lstrip s).

(** [sep.join(l)] *)
Fixpoint join (sep : string) (l : list string) : string :=
  match l with
  | [] => EmptyString
  | [x] => x
  | x :: rest => x ++ sep ++ join sep rest
  end.

(** [str(n)] for an integer. *)
Definition of_Z (n : Z) : string := NilZero.string_of_int (Z.to_int n).

(** Truth value of a string: [if s:] *)
Definition truthy (s : string) : bool :=
  match s with EmptyString => false | _ => true end.

(** [c * n] *)
Fixpoint replicate (n : nat) (c : ascii) : string :=
  match n with O => EmptyString | S k => String c (replicate k c) end.

Definition open_tag : string := "<thinking>".
Definition close_tag : string := "</thinking>".

(** [re.compile(r'<thinking>(.*?)</thinking>', re.DOTALL).findall(s)]:
    matches are taken left to right and do not overlap; a match starts at
    the first opening tag and, the group being lazy and [.] matching
    newlines, ends at the first closing tag after it.  When no closing tag
    follows an opening tag, none follows a later one either.  [fuel] bounds
    the number of matches; the length of the text is enough
    ([PyStrFacts.findall_unfold]). *)
Fixpoint findall_fuel (fuel : nat) (s : string) : list string :=
  match fuel with
  | O => []
  | S f =>
      match split1 open_tag s with
      | None => []
      | Some (_, after) =>
          match split1 close_tag after with
          | None => []
          | Some (group, rest) => group :: findall_fuel f rest
          end
      end
  end.

Definition findall (s : string) : list string :=
  findall_fuel (String.length s) s.

(** [re.sub(r'<thinking>.*?</thinking>', '', s, flags=re.DOTALL)] *)
Fixpoint sub_fuel (fuel : nat) (s : string) : string :=
  match fuel with
  | O => s
  | S f =>
      match split1 open_tag s with
      | None => s
      | Some (before, after) =>
          match split1 close_tag after with
          | None => s
          | Some (_, rest) => before ++ sub_fuel f rest
          end
      end
  end.

Definition sub (s : string) : string := sub_fuel (String.length s) s.

End PyStr.

(* ------------------------------------------------------------------ *)
(** ** utils.py and src/utils/text_utils.py *)

Module Utils.

Section Tokenizer.
(** The tiktoken interface, as the code uses it. *)
Variable Encoding : Type.
(** [tiktoken.encoding_for_model(name)]; [None] is the [KeyError] raised
    for a model tiktoken does not know. *)
Variable encoding_for_model : string -> option Encoding.
(** [tiktoken.get_encoding(name)] *)
Variable get_encoding : string -> Encoding.
(** [encoding.encode(text)], a list of token ids; like [get_encoding] it is
    taken to return on every argument. *)
Variable encode : Encoding -> string -> list Z.

(** The encoding both versions end up with: the [try]/[except KeyError]. *)
Definition resolve_encoding (model_name : string) : Encoding :=
  match encoding_for_model model_name with
  | Some encoding => encoding
  | None => get_encoding "cl100k_base"
  end.

(** utils.py, [count_tokens] *)
Definition count_tokens (text model_name : string) : Z :=
  let encoding := resolve_encoding model_name in
  let tokens := encode encoding text in
  Z.of_nat (List.length tokens).

(** src/utils/text_utils.py, [count_tokens]; [HAS_TIKTOKEN] is the
    module-level flag set by the guarded import. *)
Definition text_utils_count_tokens (HAS_TIKTOKEN : bool)
           (text model_name : string) : Z :=
  if negb HAS_TIKTOKEN then Z.of_nat (String.length text) / 4
  else
    let encoding := resolve_encoding model_name in
    let tokens := encode encoding text in
    Z.of_nat (List.length tokens).
End Tokenizer.



(** The counter of text_utils.py on an installation without tiktoken: no
    tokenizer is consulted, so any interface does. *)
Definition heuristic_count_tokens (text model_name : string) : Z :=
  text_utils_count_tokens unit (fun _ => None) (fun _ => tt) (fun _ _ => [])
                          false text model_name.

End Utils.

(* ------------------------------------------------------------------ *)
(** ** JSON values and the accesses Python performs on them *)

Module Json.

(** What [json.loads] returns.  Numbers are integers here: the functions
    below only test a number for truth or hand it on. *)
Inductive json : Type :=
| JNull
| JBool (b : bool)
| JNum (n : Z)
| JStr (s : string)
| JArr (items : list json)
| JObj (fields : list (string * json)).

Inductive exn : Type :=
| TypeError | KeyError | IndexError | AttributeError | ValueError.

(** A computation that returns or raises. *)
Inductive result (A : Type) : Type :=
| Ok (a : A)
| Raise (e : exn).
Arguments Ok {A} a.
Arguments Raise {A} e.

Definition bind {A B : Type} (r : result A) (k : A -> result B) : result B :=
  match r with
  | Ok a => k a
  | Raise e => Raise e
  end.

Notation "x <- r ;; k" := (bind r (fun x => k))
  (at level 61, r at next level, right associativity).

(** [d[key]] on the fields of a dict, first binding. *)
Fixpoint assoc (key : string) (fields : list (string * json)) : option json :=
  match fields with
  | [] => None
  | (k, v) :: rest => if String.eqb k key then Some v else assoc key rest
  end.

(** [bool(x)] *)
Definition truthy (x : json) : bool :=
  match x with
  | JNull => false
  | JBool b => b
  | JNum n => negb (n =? 0)
  | JStr s => PyStr.truthy s
  | JArr items => match items with [] => false | _ => true end
  | JObj fields => match fields with [] => false | _ => true end
  end.

Definition is_str (key : string) (x : json) : bool :=
  match x with JStr s => String.eqb s key | _ => false end.

(** [key in x] for a string [key]: key membership on a dict, element
    membership on a list, substring test on a string, [TypeError] on the
    rest. *)
Definition py_in (key : string) (x : json) : result bool :=
  match x with
  | JObj fields => Ok (match assoc key fields with Some _ => true | None => false end)
  | JArr items => Ok (existsb (is_str key) items)
  | JStr s => Ok (PyStr.contains key s)
  | _ => Raise TypeError
  end.

(** [x[key]] for a string [key]. *)
Definition py_getitem (key : string) (x : json) : result json :=
  match x with
  | JObj fields =>
      match assoc key fields with Some v => Ok v | None => Raise KeyError end
  | _ => Raise TypeError
  end.

(** [x[0]]: the first element of a list, the first character of a string;
    a dict decoded from JSON has string keys only, so [0] is no key of it. *)
Definition py_first (x : json) : result json :=
  match x with
  | JArr (v :: _) => Ok v
  | JArr [] => Raise IndexError
  | JStr (String c _) => Ok (JStr (String c EmptyString))
  | JStr EmptyString => Raise IndexError
  | JObj _ => Raise KeyError
  | _ => Raise TypeError
  end.

(** [x.get(key, default)]: only a dict has the method. *)
Definition py_get (key : string) (default : json) (x : json) : result json :=
  match x with
  | JObj fields =>
      Ok (match assoc key fields with Some v => v | None => default end)
  | _ => Raise AttributeError
  end.

End Json.

(* ------------------------------------------------------------------ *)
(** ** chat.py *)

Module Chat.
Import Json.

(** *** [stream_response] *)

(** The local variables of [stream_response] that live across chunks. *)
Record stream_state : Type := {
  full_content : string;
  thinking_content : string;
  in_thinking : bool;
  usage_info : option json;
  collected_content : list string
}.

Definition initial_state : stream_state :=
  {| full_content := ""; thinking_content := ""; in_thinking := false;
     usage_info := None; collected_content := [] |}.

(** Lines 70-98: a non-empty content delta.  It always joins
    [full_content]; under thinking mode the three [if]s come next, each
    ending in [continue]; what falls through is appended to
    [collected_content]. *)
Definition on_content (thinking_mode : bool) (content : string)
           (st : stream_state) : stream_state :=
  let full := full_content st ++ content in
  let collect :=
    {| full_content := full; thinking_content := thinking_content st;
       in_thinking := in_thinking st; usage_info := usage_info st;
       collected_content := (collected_content st ++ [content])%list |} in
  if thinking_mode then
    match PyStr.split1 PyStr.open_tag content with
    | Some (_, thinking_part) =>
        {| full_content := full;
           thinking_content := thinking_content st ++ thinking_part;
           in_thinking := true; usage_info := usage_info st;
           collected_content := collected_content st |}
    | None =>
        match PyStr.split1 PyStr.close_tag content with
        | Some (thinking_part, _) =>
            {| full_content := full;
               thinking_content := thinking_content st ++ thinking_part;
               in_thinking := false; usage_info := usage_info st;
               collected_content := collected_content st |}
        | None =>
            if in_thinking st then
              {| full_content := full;
                 thinking_content := thinking_content st ++ content;
                 in_thinking := true; usage_info := usage_info st;
                 collected_content := collected_content st |}
            else collect
        end
    end
  else collect.

(** Lines 63-64: [if 'usage' in chunk_data: usage_info = chunk_data['usage']] *)
Definition record_usage (chunk_data : json) (st : stream_state)
  : result stream_state :=
  has_usage <- py_in "usage" chunk_data ;;
  if has_usage : bool then
    usage <- py_getitem "usage" chunk_data ;;
    Ok {| full_content := full_content st;
          thinking_content := thinking_content st;
          in_thinking := in_thinking st; usage_info := Some usage;
          collected_content := collected_content st |}
  else Ok st.

(** Lines 66-68: the content of the first choice's delta, [None] when the
    chunk has no (or an empty) [choices]. *)
Definition delta_content (chunk_data : json) : result (option json) :=
  has_choices <- py_in "choices" chunk_data ;;
  if has_choices : bool then
    choices <- py_getitem "choices" chunk_data ;;
    if truthy choices then
      choice <- py_first choices ;;
      delta <- py_get "delta" (JObj []) choice ;;
      text <- py_get "text" (JStr "") delta ;;
      content <- py_get "content" text delta ;;
      Ok (Some content)
    else Ok None
  else Ok None.

(** Lines 59-98, the body of the inner [try] once [json.loads] has returned.
    The boolean tells whether an exception escaped: only [JSONDecodeError]
    is caught inside the loop, any other one ends the loop in the outer
    [except Exception]. *)
Definition on_chunk_data (thinking_mode : bool) (chunk_data : json)
           (st : stream_state) : stream_state * bool :=
  match record_usage chunk_data st with
  | Raise _ => (st, true)
  | Ok st1 =>
      match delta_content chunk_data with
      | Raise _ => (st1, true)
      | Ok None => (st1, false)
      | Ok (Some content) =>
          if truthy content then
            match content with
            | JStr s => (on_content thinking_mode s st1, false)
            | _ => (st1, true)      (* [full_content += content]: TypeError *)
            end
          else (st1, false)
      end
  end.

(** Lines 53-54: the line without its [data:] prefix. *)
Definition chunk_text_of (chunk : string) : string :=
  if PyStr.startswith "data:" chunk then PyStr.strip (PyStr.drop 5 chunk)
  else chunk.

(** Line 56: the line is the end-of-stream sentinel. *)
Definition is_done (chunk : string) : bool :=
  String.eqb (chunk_text_of chunk) "[DONE]".

Section Stream.
(** [json.loads]; [None] is [JSONDecodeError]. *)
Variable json_loads : string -> option json.

(** Lines 45-101: one iteration of the loop over [response.iter_lines()],
    on the decoded line. *)
Definition on_chunk (thinking_mode : bool) (chunk : string)
           (st : stream_state) : stream_state * bool :=
  if negb (PyStr.truthy chunk) then (st, false)
  else if PyStr.contains "OPENROUTER PROCESSING" chunk then (st, false)
  else
    let chunk_text := chunk_text_of chunk in
    if String.eqb chunk_text "[DONE]" then (st, false)
    else
      match json_loads chunk_text with
      | None => (st, false)
      | Some chunk_data => on_chunk_data thinking_mode chunk_data st
      end.

(** Lines 43-103: the loop. *)
Fixpoint consume (thinking_mode : bool) (chunks : list string)
         (st : stream_state) : stream_state :=
  match chunks with
  | [] => st
  | chunk :: rest =>
      let (st', raised) := on_chunk thinking_mode chunk st in
      if raised then st' else consume thinking_mode rest st'
  end.
End Stream.

(** The loop over chunk data already decoded (every line a JSON event). *)
Fixpoint consume_data (thinking_mode : bool) (events : list json)
         (st : stream_state) : stream_state :=
  match events with
  | [] => st
  | chunk_data :: rest =>
      let (st', raised) := on_chunk_data thinking_mode chunk_data st in
      if raised then st' else consume_data thinking_mode rest st'
  end.

(** When a line is neither a keep-alive nor the sentinel and decodes to
    [chunk_data], the loop body is the one on decoded data. *)
Definition decodes (json_loads : string -> option json) (chunk : string)
           (chunk_data : json) : Prop :=
  PyStr.truthy chunk = true
  /\ PyStr.contains "OPENROUTER PROCESSING" chunk = false
  /\ is_done chunk = false
  /\ json_loads (chunk_text_of chunk) = Some chunk_data.

Definition newline : string := String (ascii_of_nat 10) EmptyString.
Definition fallback_greeting : string := "Hello! I'm here to help you.".

(** Lines 105-123: the module-level [last_thinking_content] after the call,
    [previous] being its value before. *)
Definition update_last_thinking (thinking_mode : bool) (st : stream_state)
           (previous : string) : string :=
  let thinking_matches := PyStr.findall (full_content st) in
  if thinking_mode && negb (Nat.eqb (List.length thinking_matches) 0) then
    PyStr.join newline thinking_matches
  else if PyStr.truthy (PyStr.strip (thinking_content st)) then
    thinking_content st
  else previous.

(** Lines 125-137: the full content without its thinking spans. *)
Definition clean_content (thinking_mode : bool) (full : string) : string :=
  if thinking_mode && PyStr.contains PyStr.open_tag full then
    PyStr.strip (PyStr.sub full)
  else full.

(** Lines 139-141: the default response. *)
Definition or_greeting (cleaned_content : string) : string :=
  if negb (PyStr.truthy (PyStr.strip cleaned_content)) then fallback_greeting
  else cleaned_content.

(** What [stream_response] returns and leaves behind (the response time,
    a wall-clock difference, is left out). *)
Record stream_result : Type := {
  cleaned_content : string;
  result_usage : option json;
  last_thinking_content : string
}.

Definition finish (thinking_mode : bool) (previous : string)
           (st : stream_state) : stream_result :=
  {| cleaned_content := or_greeting (clean_content thinking_mode (full_content st));
     result_usage := usage_info st;
     last_thinking_content := update_last_thinking thinking_mode st previous |}.

Definition stream_response (json_loads : string -> option json)
           (response : list string) (thinking_mode : bool)
           (previous : string) : stream_result :=
  finish thinking_mode previous
         (consume json_loads thinking_mode response initial_state).

(** [stream_response] on a response whose lines decode to [events]. *)
Definition stream_events (events : list json) (thinking_mode : bool)
           (previous : string) : stream_result :=
  finish thinking_mode previous (consume_data thinking_mode events initial_state).

(** The event carrying one content delta:
    a dict with [choices = [ {delta: {content: ...}} ]]. *)
Definition delta_event (content : string) : json :=
  JObj [("choices", JArr [JObj [("delta", JObj [("content", JStr content)])]])].

(** *** [manage_context_window] *)

(** A conversation message, a dict with the keys [role] and [content].
    The content is text: [count_tokens] is given nothing else to count. *)
Record message : Type := { role : string; content : string }.

(** [l.insert(i, x)]; past the end it appends, as Python does. *)
Definition py_insert {A : Type} (i : nat) (x : A) (l : list A) : list A :=
  firstn i l ++ x :: skipn i l.

(** [sum(...)] *)
Definition py_sum (l : list Z) : Z := fold_left Z.add l 0.

(** The running values of the trimming loop. *)
Record trim_state : Type := {
  trimmed_history : list message;
  current_tokens : Z;
  trimmed_count : Z
}.

Section ContextWindow.
(** [count_tokens(text, model_name)], imported from utils. *)
Variable count_tokens : string -> string -> Z.

(** Line 157: the token total of a history. *)
Definition history_tokens (model_name : string) (h : list message) : Z :=
  py_sum (map (fun msg => count_tokens (content msg) model_name) h).

(** Lines 174-179: the body of the loop over the reversed messages. *)
Definition consider (max_tokens : Z) (model_name : string)
           (st : trim_state) (msg : message) : trim_state :=
  let msg_tokens := count_tokens (content msg) model_name in
  if current_tokens st + msg_tokens <? max_tokens - 1000 then
    {| trimmed_history := py_insert 1 msg (trimmed_history st);
       current_tokens := current_tokens st + msg_tokens;
       trimmed_count := trimmed_count st |}
  else
    {| trimmed_history := trimmed_history st;
       current_tokens := current_tokens st;
       trimmed_count := trimmed_count st + 1 |}.

(** Line 183: the synthesized note. *)
Definition trim_note (n : Z) : message :=
  {| role := "system";
     content := "Note: " ++ PyStr.of_Z n ++
       " earlier messages have been removed to stay within the context window." |}.

(** Lines 151-186.  [None] is the [IndexError] of [conversation_history[0]]
    on the empty list. *)
Definition manage_context_window (conversation_history : list message)
           (max_tokens : Z) (model_name : string)
  : option (list message * Z) :=
  match conversation_history with
  | [] => None
  | system_message :: messages_to_consider =>
      let total_tokens := history_tokens model_name conversation_history in
      if total_tokens <=? max_tokens then Some (conversation_history, 0)
      else
        let st :=
          fold_left (consider max_tokens model_name)
                    (rev messages_to_consider)
                    {| trimmed_history := [system_message];
                       current_tokens :=
                         count_tokens (content system_message) model_name;
                       trimmed_count := 0 |} in
        if 0 <? trimmed_count st then
          Some (py_insert 1 (trim_note (trimmed_count st)) (trimmed_history st),
                trimmed_count st)
        else Some (trimmed_history st, trimmed_count st)
  end.

(** The returned sequence without the synthesized note, which sits at index
    1 exactly when messages were dropped. *)
Definition without_note (r : list message * Z) : list message :=
  let (h, dropped) := r in
  if 0 <? dropped then (firstn 1 h ++ skipn 2 h)%list else h.

(** What the trimming loop maintains: the system message stays in front,
    [current_tokens] is the token total of [trimmed_history], the count of
    dropped messages is not negative, and the running total is either still
    that of the system message alone or below the budget less the margin. *)
Definition trim_inv (max_tokens : Z) (model_name : string)
           (system_message : message) (st : trim_state) : Prop :=
  (exists tl, trimmed_history st = system_message :: tl)
  /\ history_tokens model_name (trimmed_history st) = current_tokens st
  /\ 0 <= trimmed_count st
  /\ (current_tokens st = count_tokens (content system_message) model_name
      \/ current_tokens st < max_tokens - 1000).

(** *** The message-sending part of [chat_with_model] (lines 899-1092) *)

(** How the request of one turn ends: [requests.post] raises a
    [RequestException] (network, timeout) or some other exception, or it
    returns a response with a status code and, for the streaming reader,
    its lines. *)
Inductive request_outcome : Type :=
| RequestException
| OtherException
| Response (status_code : Z) (lines : list string).

(** [if conversation_history and conversation_history[-1]["role"] == "user":
       conversation_history.pop()] *)
Definition pop_if_user (h : list message) : list message :=
  match rev h with
  | [] => h
  | last_msg :: before =>
      if String.eqb (role last_msg) "user" then rev before else h
  end.

Variable json_loads : string -> option json.

(** One plain message: the history the loop holds afterwards.  The message
    is appended (line 900), the history trimmed and rebound (line 911), the
    request sent; lines 1072-1074 are reached after both branches of the
    status test. *)
Definition send_message (thinking_mode : bool) (max_tokens : Z)
           (model_name : string) (previous_thinking : string)
           (conversation_history : list message) (user_input : string)
           (outcome : request_outcome) : list message :=
  let appended :=
    (conversation_history ++ [{| role := "user"; content := user_input |}])%list in
  match manage_context_window appended max_tokens model_name with
  | None => appended
  | Some (h, _) =>
      match outcome with
      | RequestException => pop_if_user h
      | OtherException => pop_if_user h
      | Response status_code lines =>
          let h' :=
            if status_code =? 200 then
              let message_content :=
                cleaned_content
                  (stream_response json_loads lines thinking_mode
                                   previous_thinking) in
              if PyStr.truthy message_content then
                (h ++ [{| role := "assistant"; content := message_content |}])%list
              else pop_if_user h
            else h in
          pop_if_user h'
      end
  end.

End ContextWindow.

End Chat.

(* ------------------------------------------------------------------ *)
(** ** config.py *)

Module Config.
Import Json.

(** Python [bytes]. *)
Definition bytes : Type := list Byte.byte.

Section Fernet.
(** The randomness one call draws ([os.urandom], the clock). *)
Variable entropy : Type.
(** [Fernet.generate_key()] *)
Variable fernet_generate_key : entropy -> bytes.
(** Whether [Fernet(key)] accepts the key; it raises [ValueError] otherwise. *)
Variable fernet_valid_key : bytes -> bool.
(** [Fernet(key).encrypt(data)] *)
Variable fernet_encrypt : bytes -> entropy -> bytes -> bytes.
(** [Fernet(key).decrypt(token)]; [None] is [InvalidToken]. *)
Variable fernet_decrypt : bytes -> bytes -> option bytes.
(** [s.encode()] and [b.decode()] (UTF-8); [None] is [UnicodeDecodeError]. *)
Variable str_encode : string -> bytes.
Variable bytes_decode : bytes -> option string.

(** Lines 11-13 *)
Definition generate_key (e : entropy) : bytes := fernet_generate_key e.

(** Lines 15-17: nothing is caught here. *)
Definition encrypt_api_key (api_key : string) (key : bytes) (e : entropy)
  : result bytes :=
  if fernet_valid_key key then Ok (fernet_encrypt key e (str_encode api_key))
  else Raise ValueError.

(** Line 22, the body of the [try]. *)
Definition decrypt_body (encrypted_key key : bytes) : result string :=
  if fernet_valid_key key then
    match fernet_decrypt key encrypted_key with
    | None => Raise ValueError          (* InvalidToken *)
    | Some data =>
        match bytes_decode data with
        | None => Raise ValueError      (* UnicodeDecodeError *)
        | Some s => Ok s
        end
    end
  else Raise ValueError.

(** Lines 19-24: [except Exception: return None]. *)
Definition decrypt_api_key (encrypted_key key : bytes)
  : result (option string) :=
  match decrypt_body encrypted_key key with
  | Ok s => Ok (Some s)
  | Raise _ => Ok None
  end.
End Fernet.

(** A one-byte-key stand-in for Fernet, to instantiate the interface: the
    token is the key followed by the data. *)
Definition toy_valid_key (key : bytes) : bool :=
  match key with [_] => true | _ => false end.

Definition toy_encrypt (key : bytes) (_ : Byte.byte) (data : bytes) : bytes :=
  (key ++ data)%list.

Definition toy_decrypt (key token : bytes) : option bytes :=
  match key, token with
  | [k], t :: data => if Byte.eqb k t then Some data else None
  | _, _ => None
  end.

Definition toy_generate_key (e : Byte.byte) : bytes := [e].

End Config.

(* ------------------------------------------------------------------ *)
(** ** api_client.py *)

Module ApiClient.
Import Json.

Section Capability.
(** Python floats, [float(x)] on a decoded value, and [x == 0]. *)
Variable pyfloat : Type.
Variable py_float : json -> result pyfloat.
Variable float_is_zero : pyfloat -> bool.

Definition is_none (x : json) : bool :=
  match x with JNull => true | _ => false end.

(** Lines 113-117: the prompt price read off an endpoint. *)
Definition prompt_price_of (endpoint : json) : result pyfloat :=
  pricing <- py_get "pricing" (JObj []) endpoint ;;
  let pricing := if is_none pricing then JObj [] else pricing in
  prompt <- py_get "prompt" (JStr "0") pricing ;;
  py_float prompt.

(** Lines 78-119: the body of the loop; [true] when the model is appended
    to [filtered_models]. *)
Definition keep_model (capability_filter : string) (model : json)
  : result bool :=
  if is_none model then Ok false
  else
    endpoint <- py_get "endpoint" (JObj []) model ;;
    if is_none endpoint then Ok false
    else if String.eqb capability_filter "reasoning" then
      supports_reasoning <- py_get "supports_reasoning" (JBool false) endpoint ;;
      model_config <- py_get "reasoning_config" JNull model ;;
      reasoning_config <-
        (if truthy model_config then Ok model_config
         else py_get "reasoning_config" JNull endpoint) ;;
      Ok (truthy supports_reasoning || truthy reasoning_config)
    else if String.eqb capability_filter "multipart" then
      supports_multipart <- py_get "supports_multipart" (JBool false) endpoint ;;
      input_modalities <- py_get "input_modalities" (JArr []) model ;;
      if truthy supports_multipart then Ok true
      else py_in "image" input_modalities
    else if String.eqb capability_filter "tools" then
      supports_tools <- py_get "supports_tool_parameters" (JBool false) endpoint ;;
      supported_params <- py_get "supported_parameters" (JArr []) endpoint ;;
      let supported_params :=
        if is_none supported_params then JArr [] else supported_params in
      if truthy supports_tools then Ok true
      else py_in "tools" supported_params
    else if String.eqb capability_filter "free" then
      is_free <- py_get "is_free" (JBool false) endpoint ;;
      prompt_price <- prompt_price_of endpoint ;;
      Ok (truthy is_free || float_is_zero prompt_price)
    else Ok false.

(** Lines 76-121: the loop. *)
Fixpoint filter_models (capability_filter : string) (models : list json)
  : result (list json) :=
  match models with
  | [] => Ok []
  | model :: rest =>
      keep <- keep_model capability_filter model ;;
      filtered <- filter_models capability_filter rest ;;
      Ok (if keep : bool then model :: filtered else filtered)
  end.

(** Lines 68-126.  [enhanced_models] is what [get_enhanced_models()]
    fetched, [available_models] what [get_available_models()] would return
    in the handler of the outer [try]. *)
Definition get_models_by_capability (enhanced_models available_models : list json)
           (capability_filter : string) : list json :=
  if String.eqb capability_filter "all" then enhanced_models
  else
    match filter_models capability_filter enhanced_models with
    | Ok filtered_models => filtered_models
    | Raise _ => available_models
    end.
End Capability.

(** A [float] that reads integers and two price strings, to instantiate the
    interface; a float is its value in millionths. *)
Definition toy_float (x : json) : result Z :=
  match x with
  | JNum n => Ok (n * 1000000)
  | JStr s => if String.eqb s "0" then Ok 0
              else if String.eqb s "0.000001" then Ok 1
              else Raise ValueError
  | _ => Raise TypeError
  end.

Definition free_model : json :=
  JObj [("id", JStr "vendor/free-model");
        ("endpoint", JObj [("is_free", JBool true)])].

Definition paid_model : json :=
  JObj [("id", JStr "vendor/paid-model");
        ("endpoint", JObj [("pricing", JObj [("prompt", JStr "0.000001")])])].

End ApiClient.

(* ------------------------------------------------------------------ *)
(** ** More string operations *)

Module PyText.

(** [char in chars] *)
Fixpoint mem_char (c : ascii) (chars : string) : bool :=
  match chars with
  | EmptyString => false
  | String d rest => Ascii.eqb c d || mem_char c rest
  end.

(** [s[:n]] for [n >= 0] *)
Fixpoint take (n : nat) (s : string) : string :=
  match n, s with
  | O, _ => EmptyString
  | S _, EmptyString => EmptyString
  | S k, String c s' => String c (take k s')
  end.

(** [s[:n]] for any integer [n]: a negative [n] counts from the end. *)
Definition slice_to (n : Z) (s : string) : string :=
  if 0 <=? n then take (Z.to_nat n) s
  else take (String.length s - Z.to_nat (- n)) s.

(** [s.lstrip(chars)], [s.rstrip(chars)], [s.strip(chars)] *)
Fixpoint lstrip_chars (chars s : string) : string :=
  match s with
  | EmptyString => EmptyString
  | String c s' => if mem_char c chars then lstrip_chars chars s' else s
  end.

Fixpoint rstrip_chars (chars s : string) : string :=
  match s with
  | EmptyString => EmptyString
  | String c s' =>
      match rstrip_chars chars s' with
      | EmptyString =>
          if mem_char c chars then EmptyString else String c EmptyString
      | r => String c r
      end
  end.

Definition strip_chars (chars s : string) : string :=
  rstrip_chars chars (lstrip_chars chars s).

(** [s.replace(c, by)] for a pattern of one character. *)
Fixpoint replace_char (c : ascii) (by_ : string) (s : string) : string :=
  match s with
  | EmptyString => EmptyString
  | String d s' =>
      if Ascii.eqb d c then by_ ++ replace_char c by_ s'
      else String d (replace_char c by_ s')
  end.

(** [c.lower()] for the characters below 256: A-Z and the capital letters
    of Latin-1 (0xC0-0xDE but the multiplication sign) move up by 32. *)
Definition lower_char (c : ascii) : ascii :=
  let n := nat_of_ascii c in
  if ((65 <=? n) && (n <=? 90))%nat
     || ((192 <=? n) && (n <=? 222) && negb (n =? 215))%nat
  then ascii_of_nat (n + 32)
  else c.

(** [s.lower()] *)
Fixpoint lower (s : string) : string :=
  match s with
  | EmptyString => EmptyString
  | String c s' => String (lower_char c) (lower s')
  end.

(** The double quote, which a literal cannot hold. *)
Definition dquote : ascii := ascii_of_nat 34.

(** [all(p(c) for c in s)] *)
Fixpoint all_chars (p : ascii -> bool) (s : string) : bool :=
  match s with
  | EmptyString => true
  | String c s' => p c && all_chars p s'
  end.

(** [s[0]] and [s[-1]], [None] on the empty string. *)
Definition first_char (s : string) : option ascii :=
  match s with EmptyString => None | String c _ => Some c end.

Fixpoint last_char (s : string) : option ascii :=
  match s with
  | EmptyString => None
  | String c EmptyString => Some c
  | String _ s' => last_char s'
  end.

End PyText.

(* ------------------------------------------------------------------ *)
(** ** src/utils/text_utils.py, the text helpers *)

Module TextUtils.

(** Lines 113-134, [truncate_text] *)
Definition truncate_text (text : string) (max_length : Z) (suffix : string)
  : string :=
  if Z.of_nat (String.length text) <=? max_length then text
  else
    let truncate_length := max_length - Z.of_nat (String.length suffix) in
    if truncate_length <=? 0 then PyText.slice_to max_length suffix
    else PyText.slice_to truncate_length text ++ suffix.

(** Line 147: the characters no file name may hold. *)
Definition invalid_chars : string :=
  "<>:" ++ String PyText.dquote "/\|?*".

(** Line 150: every invalid character becomes an underscore. *)
Fixpoint replace_invalid (filename : string) : string :=
  match filename with
  | EmptyString => EmptyString
  | String char rest =>
      String (if PyText.mem_char char invalid_chars then "_"%char else char)
             (replace_invalid rest)
  end.

(** Lines 137-159, [safe_filename] *)
Definition safe_filename (filename : string) : string :=
  let safe_name := replace_invalid filename in
  let safe_name := PyText.strip_chars " ." safe_name in
  if negb (PyStr.truthy safe_name) then "untitled" else safe_name.

End TextUtils.

(* ------------------------------------------------------------------ *)
(** ** src/utils/file_handler.py, the parts without file access *)

Module FileHandler.

(** Lines 143-150, [_escape_html]: five replacements in a row. *)
Definition _escape_html (text : string) : string :=
  let text := PyText.replace_char "&" "&amp;" text in
  let text := PyText.replace_char "<" "&lt;" text in
  let text := PyText.replace_char ">" "&gt;" text in
  let text := PyText.replace_char PyText.dquote "&quot;" text in
  let text := PyText.replace_char "'" "&#x27;" text in
  text.

(** What one character becomes in a single pass. *)
Definition html_entity (c : ascii) : string :=
  if Ascii.eqb c "&" then "&amp;"
  else if Ascii.eqb c "<" then "&lt;"
  else if Ascii.eqb c ">" then "&gt;"
  else if Ascii.eqb c PyText.dquote then "&quot;"
  else if Ascii.eqb c "'" then "&#x27;"
  else String c EmptyString.

Fixpoint escape_pass (text : string) : string :=
  match text with
  | EmptyString => EmptyString
  | String c rest => html_entity c ++ escape_pass rest
  end.

(** [data.startswith(prefix)] on bytes. *)
Fixpoint bytes_startswith (prefix data : list Byte.byte) : bool :=
  match prefix, data with
  | [], _ => true
  | _ :: _, [] => false
  | p :: prefix', d :: data' => Byte.eqb p d && bytes_startswith prefix' data'
  end.

(** Lines 354-359, [_is_valid_image]: the JPEG, PNG, GIF and WebP headers. *)
Definition _is_valid_image (image_data : list Byte.byte) : bool :=
  bytes_startswith [Byte.xff; Byte.xd8] image_data
  || bytes_startswith [Byte.x89; Byte.x50; Byte.x4e; Byte.x47] image_data
  || bytes_startswith [Byte.x47; Byte.x49; Byte.x46; Byte.x38] image_data
  || bytes_startswith [Byte.x52; Byte.x49; Byte.x46; Byte.x46] image_data.

(** core/constants.py, lines 20-32, [ALLOWED_FILE_EXTENSIONS] *)
Definition ALLOWED_FILE_EXTENSIONS : list string :=
  [".txt"; ".md"; ".json"; ".xml"; ".csv";
   ".py"; ".js"; ".ts"; ".java"; ".cpp"; ".c"; ".cs"; ".go"; ".rb"; ".php";
   ".swift";
   ".html"; ".css";
   ".jpg"; ".jpeg"; ".png"; ".gif"; ".webp"; ".bmp"].

(** [x in l] for strings. *)
Definition mem (x : string) (l : list string) : bool :=
  existsb (String.eqb x) l.

(** Lines 176-191 of [validate_file_security]: the checks on the (lowered)
    extension, after the size check and with the path check passed.
    [None] when the extension is accepted, the reason otherwise. *)
Inductive ext_refusal : Type := NotAllowed | Executable.

Definition dangerous_extensions : list string :=
  [".exe"; ".bat"; ".cmd"; ".com"; ".scr"; ".pif"; ".vbs"; ".jar"; ".sh"].

Definition check_extension (file_ext : string) : option ext_refusal :=
  if negb (mem file_ext ALLOWED_FILE_EXTENSIONS) then Some NotAllowed
  else if mem file_ext dangerous_extensions then Some Executable
  else None.

(** Lines 361-410, [_extract_file_content]: the file type description it
    returns for an extension; [readable] tells whether the file reads as
    text (only the last branch asks). *)
Definition file_type_of (file_ext : string) (readable : bool) : string :=
  if mem file_ext [".jpg"; ".jpeg"; ".png"; ".gif"; ".webp"; ".bmp"]
  then "image"
  else if mem file_ext [".pdf"] then "PDF document"
  else if mem file_ext [".py"; ".js"; ".java"; ".cpp"; ".c"; ".cs"; ".go";
                        ".rb"; ".php"; ".ts"; ".swift"]
  then "code"
  else if mem file_ext [".txt"; ".md"; ".csv"] then "text"
  else if mem file_ext [".json"; ".xml"] then "data"
  else if mem file_ext [".html"; ".css"] then "web"
  else if mem file_ext [".zip"; ".tar"; ".gz"; ".rar"] then "archive"
  else if readable then "text" else "binary".

End FileHandler.

(* ------------------------------------------------------------------ *)
(** ** chat.py, the rest of the session loop *)

Module ChatLoop.
Import Chat.

(** *** The request body (lines 919-943) *)

(** Lines 941-943: only the three roles of the API are sent. *)
Definition keep_valid_role (clean_msg : message) : option message :=
  if FileHandler.mem (role clean_msg) ["system"; "user"; "assistant"]
  then Some clean_msg else None.

(** Lines 921-943, the body of the loop: the message as it is sent, [None]
    when it is skipped. *)
Definition clean_message (model : string) (msg : message) : option message :=
  if String.eqb (role msg) "system" then
    if PyStr.contains "gemma" (PyText.lower model) then
      if PyStr.truthy (content msg) && PyStr.truthy (PyStr.strip (content msg))
      then keep_valid_role
             {| role := "user";
                content := "Please follow these instructions: " ++ content msg |}
      else None
    else keep_valid_role msg
  else keep_valid_role msg.

Fixpoint clean_conversation (model : string) (conversation_history : list message)
  : list message :=
  match conversation_history with
  | [] => []
  | msg :: rest =>
      match clean_message model msg with
      | Some clean_msg => clean_msg :: clean_conversation model rest
      | None => clean_conversation model rest
      end
  end.

(** *** Command dispatch (lines 501-891) *)

Inductive command : Type :=
| CmdExit | CmdHelp | CmdClear | CmdNew | CmdSave | CmdSettings | CmdTokens
| CmdSpeed | CmdModel | CmdTemperature | CmdSystem | CmdTheme | CmdAbout
| CmdUpdate | CmdThinking | CmdThinkingMode | CmdClearScreen | CmdUnknown.

(** The chain of tests on [command = user_input.lower()], in the order of
    the source; the loop enters it when the input starts with a slash. *)
Definition dispatch (user_input : string) : command :=
  let command := PyText.lower user_input in
  if String.eqb command "/exit" || String.eqb command "/quit" then CmdExit
  else if String.eqb command "/help" then CmdHelp
  else if String.eqb command "/clear" then CmdClear
  else if String.eqb command "/new" then CmdNew
  else if String.eqb command "/save" then CmdSave
  else if String.eqb command "/settings" then CmdSettings
  else if String.eqb command "/tokens" then CmdTokens
  else if String.eqb command "/speed" then CmdSpeed
  else if PyStr.startswith "/model" command then CmdModel
  else if PyStr.startswith "/temperature" command then CmdTemperature
  else if PyStr.startswith "/system" command then CmdSystem
  else if PyStr.startswith "/theme" command then CmdTheme
  else if String.eqb command "/about" then CmdAbout
  else if String.eqb command "/update" then CmdUpdate
  else if String.eqb command "/thinking" then CmdThinking
  else if String.eqb command "/thinking-mode" then CmdThinkingMode
  else if String.eqb command "/cls" || String.eqb command "/clear-screen"
  then CmdClearScreen
  else CmdUnknown.

(** Line 562 of the [/save] branch: [parts = user_input.split(' ', 1)];
    the file name typed after the command, if there is one. *)
Definition save_filename_argument (user_input : string) : option string :=
  match PyStr.split1 " " user_input with
  | Some (_, filename) => Some filename
  | None => None
  end.

(** *** The system prompt under the commands that touch it *)

(** What the commands below read and write: two entries of [config] and
    the history. *)
Record session : Type := {
  thinking_mode : bool;
  system_instructions : string;
  conversation_history : list message
}.

(** Lines 202-210 and 830-838: the system prompt of thinking mode. *)
Definition thinking_instruction (instructions : string) : string :=
  instructions ++ newline ++ newline ++
  "CRITICAL INSTRUCTION: For EVERY response without exception, you MUST first explain your " ++
  "thinking process between <thinking> and </thinking> tags, even for simple greetings or short " ++
  "responses. This thinking section should explain your reasoning and approach. " ++
  "After the thinking section, provide your final response. Example format:" ++ newline ++
  "<thinking>Here I analyze what to say, considering context and appropriate responses...</thinking>" ++ newline ++
  "This is my actual response to the user.".

(** The system prompt that goes with a mode. *)
Definition system_prompt_for (mode : bool) (instructions : string) : string :=
  if mode then thinking_instruction instructions else instructions.

(** Lines 198-217: the history a session starts with when none is given. *)
Definition initial_session (mode : bool) (instructions : string) : session :=
  {| thinking_mode := mode; system_instructions := instructions;
     conversation_history :=
       [{| role := "system"; content := system_prompt_for mode instructions |}] |}.

(** Lines 518-521, [/clear] (and line 540 of [/new]). *)
Definition cmd_clear (s : session) : session :=
  {| thinking_mode := thinking_mode s;
     system_instructions := system_instructions s;
     conversation_history :=
       [{| role := "system"; content := system_instructions s |}] |}.

(** Lines 733-739, [/system <text>]: the assignment to index 0 raises
    [IndexError] on an empty history, after [config] has been written. *)
Definition cmd_system (text : string) (s : session) : session :=
  {| thinking_mode := thinking_mode s;
     system_instructions := text;
     conversation_history :=
       match conversation_history s with
       | [] => []
       | _ :: rest => {| role := "system"; content := text |} :: rest
       end |}.

(** Lines 821-842, [/thinking-mode]: the content of the first message is
    rewritten in place when that message has the role [system]. *)
Definition cmd_thinking_mode (s : session) : session :=
  let mode := negb (thinking_mode s) in
  {| thinking_mode := mode;
     system_instructions := system_instructions s;
     conversation_history :=
       match conversation_history s with
       | first :: rest =>
           if String.eqb (role first) "system" then
             {| role := role first;
                content := system_prompt_for mode (system_instructions s) |}
             :: rest
           else first :: rest
       | [] => []
       end |}.

(** *** Token accounting (lines 893-897 and 972-1019) *)

Record counters : Type := {
  total_tokens_used : Z;
  total_prompt_tokens : Z;
  total_completion_tokens : Z;
  message_count : Z
}.

(** The usage summary of the API, a dict with integer values. *)
Definition usage : Type := list (string * Z).

Fixpoint usage_get (key : string) (default : Z) (usage_info : usage) : Z :=
  match usage_info with
  | [] => default
  | (k, v) :: rest => if String.eqb k key then v else usage_get key default rest
  end.

Section Accounting.
(** [count_tokens(text)], called here with its default model name. *)
Variable count_tokens : string -> string -> Z.

(** The counters after one plain message.  [answer] is [None] when the turn
    failed, otherwise the content [stream_response] returned with the usage
    summary it captured. *)
Definition account (user_input : string)
           (answer : option (string * option usage)) (c : counters) : counters :=
  let input_tokens := count_tokens user_input "cl100k_base" in
  let prompt := total_prompt_tokens c + input_tokens in
  match answer with
  | None =>
      {| total_tokens_used := total_tokens_used c;
         total_prompt_tokens := prompt;
         total_completion_tokens := total_completion_tokens c;
         message_count := message_count c |}
  | Some (message_content, usage_info) =>
      match usage_info with
      | Some (entry :: entries) =>
          let info := entry :: entries in
          let actual_prompt_tokens := usage_get "prompt_tokens" 0 info in
          let actual_completion_tokens := usage_get "completion_tokens" 0 info in
          let actual_total_tokens :=
            usage_get "total_tokens"
                      (actual_prompt_tokens + actual_completion_tokens) info in
          {| total_tokens_used := total_tokens_used c + actual_total_tokens;
             total_prompt_tokens := prompt + actual_prompt_tokens;
             total_completion_tokens :=
               total_completion_tokens c + actual_completion_tokens;
             message_count := message_count c + 1 |}
      | _ =>
          let response_tokens := count_tokens message_content "cl100k_base" in
          {| total_tokens_used :=
               total_tokens_used c + (input_tokens + response_tokens);
             total_prompt_tokens := prompt;
             total_completion_tokens := total_completion_tokens c + response_tokens;
             message_count := message_count c + 1 |}
      end
  end.

(** By how much the prompt and completion counters together run ahead of
    the total. *)
Definition counter_gap (c : counters) : Z :=
  total_prompt_tokens c + total_completion_tokens c - total_tokens_used c.
End Accounting.

End ChatLoop.

(* ------------------------------------------------------------------ *)
(** ** config.py, the stored key *)

Module ConfigStore.
Import Json Config.

(** Lines 45-53, [validate_api_key_format]: the verdict, and whether the
    warning about the format was printed. *)
Definition validate_api_key_format (api_key : string) : bool * bool :=
  if negb (PyStr.truthy api_key) || (Z.of_nat (String.length api_key) <? 20)
  then (false, false)
  else (true, negb (PyStr.startswith "sk-or-" api_key)).

(** Lines 55-66, [secure_input_api_key]; [typed] is what [getpass] returned,
    [None] when the input was interrupted. *)
Definition secure_input_api_key (typed : option string) : option string :=
  match typed with
  | None => None
  | Some api_key =>
      if fst (validate_api_key_format api_key) then Some api_key else None
  end.

(** A section of config.ini as configparser presents it: option, value. *)
Definition section : Type := list (string * string).

Fixpoint lookup (option_name : string) (options : section) : option string :=
  match options with
  | [] => None
  | (k, v) :: rest =>
      if String.eqb k option_name then Some v else lookup option_name rest
  end.

(** What [save_config] assigns to [config['API']]: nothing, or a dict with
    one option (the value is [config_data['api_key']], which may be
    [None]). *)
Inductive api_assignment : Type :=
| Unset
| Assign (option_name : string) (value : option string).

(** The [API] section a later [load_config] finds, the file holding what
    was assigned. *)
Definition as_section (a : api_assignment) : option section :=
  match a with
  | Assign option_name (Some value) => Some [(option_name, value)]
  | _ => None
  end.

Section Store.
Variable entropy : Type.
Variable fernet_generate_key : entropy -> bytes.
Variable fernet_valid_key : bytes -> bool.
Variable fernet_encrypt : bytes -> entropy -> bytes -> bytes.
Variable fernet_decrypt : bytes -> bytes -> option bytes.
Variable str_encode : string -> bytes.
Variable bytes_decode : bytes -> option string.
(** [base64.b64encode(b).decode('utf-8')] and [base64.b64decode(s)]; [None]
    is [binascii.Error]. *)
Variable b64encode : bytes -> string.
Variable b64decode : string -> option bytes.

(** Lines 26-43, [get_or_create_master_key]: [key_file] is the content of
    the key file, [None] when there is none; the key and the key file
    afterwards. *)
Definition get_or_create_master_key (key_file : option bytes) (e : entropy)
  : bytes * option bytes :=
  match key_file with
  | Some key => (key, Some key)
  | None =>
      let key := generate_key entropy fernet_generate_key e in
      (key, Some key)
  end.

(** Lines 68-101 of [load_config]: the [api_key] it returns, and the key
    file afterwards.  [env_key] is [os.getenv("OPENROUTER_API_KEY")], [api]
    the [API] section of config.ini, [None] when the file or the section is
    missing. *)
Definition load_api_key (env_key : option string) (api : option section)
           (key_file : option bytes) (e : entropy)
  : option string * option bytes :=
  match api with
  | None => (env_key, key_file)
  | Some options =>
      match lookup "OPENROUTER_API_KEY_ENCRYPTED" options with
      | Some encrypted_key_b64 =>
          match b64decode encrypted_key_b64 with
          | None => (env_key, key_file)
          | Some encrypted_key =>
              let (master_key, key_file') :=
                get_or_create_master_key key_file e in
              match decrypt_api_key fernet_valid_key fernet_decrypt bytes_decode
                                    encrypted_key master_key with
              | Ok (Some decrypted_key) =>
                  if PyStr.truthy decrypted_key
                  then (Some decrypted_key, key_file')
                  else (env_key, key_file')
              | _ => (env_key, key_file')
              end
          end
      | None =>
          match lookup "OPENROUTER_API_KEY" options with
          | Some plain =>
              if PyStr.truthy plain then (Some plain, key_file)
              else (env_key, key_file)
          | None => (env_key, key_file)
          end
      end
  end.

(** Lines 127-138 of [save_config]: what is assigned to [config['API']],
    and the key file afterwards.  [env] is the environment variable, [None]
    when it is not set. *)
Definition save_api_key (env : option string) (api_key : option string)
           (key_file : option bytes) (e_key e_token : entropy)
  : api_assignment * option bytes :=
  match env with
  | Some _ => (Unset, key_file)
  | None =>
      match api_key with
      | Some key_text =>
          if PyStr.truthy key_text then
            let (master_key, key_file') :=
              get_or_create_master_key key_file e_key in
            match encrypt_api_key entropy fernet_valid_key fernet_encrypt
                                  str_encode key_text master_key e_token with
            | Ok encrypted_key =>
                (Assign "OPENROUTER_API_KEY_ENCRYPTED"
                        (Some (b64encode encrypted_key)), key_file')
            | Raise _ => (Assign "OPENROUTER_API_KEY" api_key, key_file')
            end
          else (Assign "OPENROUTER_API_KEY" api_key, key_file)
      | None => (Assign "OPENROUTER_API_KEY" None, key_file)
      end
  end.
End Store.

(** A base64 that leaves the bytes as they are, to instantiate the
    interface. *)
Definition toy_b64encode (b : bytes) : string := string_of_list_byte b.
Definition toy_b64decode (s : string) : option bytes :=
  Some (list_byte_of_string s).

End ConfigStore.

(* ------------------------------------------------------------------ *)
(** ** api_client.py, looking a model up and grouping the catalogue *)

Module ApiCatalogue.
Import Json ApiClient.

(** Lines 34-39 of [get_model_info]: the loop; it raises where
    [model["id"]] does. *)
Fixpoint find_model (model_id : string) (models : list json)
  : result (option json) :=
  match models with
  | [] => Ok None
  | model :: rest =>
      id <- py_getitem "id" model ;;
      if is_str model_id id then Ok (Some model)
      else find_model model_id rest
  end.

(** Lines 29-42; [models] is what [get_available_models()] returned. *)
Definition get_model_info (models : list json) (model_id : string)
  : option json :=
  match find_model model_id models with
  | Ok found => found
  | Raise _ => None
  end.

(** Whether a dict takes the value as a key; lists and dicts are not
    hashable. *)
Definition hashable (x : json) : bool :=
  match x with
  | JArr _ | JObj _ => false
  | _ => true
  end.

(** [a == b] on hashable values: [True == 1] and [False == 0]. *)
Definition key_eqb (a b : json) : bool :=
  match a, b with
  | JNull, JNull => true
  | JStr s, JStr t => String.eqb s t
  | JBool x, JBool y => Bool.eqb x y
  | JNum n, JNum m => n =? m
  | JBool x, JNum m => (if x then 1 else 0) =? m
  | JNum n, JBool y => n =? (if y then 1 else 0)
  | _, _ => false
  end.

(** A dict of lists in insertion order. *)
Definition buckets : Type := list (json * list json).

(** [d.get(key)] on such a dict. *)
Fixpoint bucket (key : json) (d : buckets) : option (list json) :=
  match d with
  | [] => None
  | (k, models) :: rest => if key_eqb k key then Some models else bucket key rest
  end.

(** Lines 140-142 and 166-168:
    [if key not in d: d[key] = []] and then [d[key].append(model)]. *)
Fixpoint bucket_append (key model : json) (d : buckets) : buckets :=
  match d with
  | [] => [(key, [model])]
  | (k, models) :: rest =>
      if key_eqb k key then (k, (models ++ [model])%list) :: rest
      else (k, models) :: bucket_append key model rest
  end.

Definition py_bucket_append (key model : json) (d : buckets) : result buckets :=
  if hashable key then Ok (bucket_append key model d) else Raise TypeError.

(** Lines 134-142: the loop of [get_models_by_group]. *)
Fixpoint group_loop (groups : buckets) (models : list json) : result buckets :=
  match models with
  | [] => Ok groups
  | model :: rest =>
      if is_none model then group_loop groups rest
      else
        group <- py_get "group" (JStr "Other") model ;;
        groups' <- py_bucket_append group model groups ;;
        group_loop groups' rest
  end.

(** Lines 128-148 *)
Definition get_models_by_group (enhanced_models : list json) : buckets :=
  match group_loop [] enhanced_models with
  | Ok groups => groups
  | Raise _ => []
  end.

(** Lines 156-168: the loop of [get_models_by_provider]. *)
Fixpoint provider_loop (providers : buckets) (models : list json)
  : result buckets :=
  match models with
  | [] => Ok providers
  | model :: rest =>
      if is_none model then provider_loop providers rest
      else
        endpoint <- py_get "endpoint" (JObj []) model ;;
        if is_none endpoint then provider_loop providers rest
        else
          provider <- py_get "provider_name" (JStr "Unknown") endpoint ;;
          providers' <- py_bucket_append provider model providers ;;
          provider_loop providers' rest
  end.

(** Lines 150-174 *)
Definition get_models_by_provider (enhanced_models : list json) : buckets :=
  match provider_loop [] enhanced_models with
  | Ok providers => providers
  | Raise _ => []
  end.

(** The group a record is listed under, and whether that is [key]. *)
Definition in_group (key : json) (model : json) : bool :=
  match model with
  | JObj _ =>
      match py_get "group" (JStr "Other") model with
      | Ok group => key_eqb group key
      | Raise _ => false
      end
  | _ => false
  end.

(** The provider a record is listed under, and whether that is [key]. *)
Definition in_provider (key : json) (model : json) : bool :=
  match model with
  | JObj _ =>
      match py_get "endpoint" (JObj []) model with
      | Ok endpoint =>
          if is_none endpoint then false
          else
            match py_get "provider_name" (JStr "Unknown") endpoint with
            | Ok provider => key_eqb provider key
            | Raise _ => false
            end
      | Raise _ => false
      end
  | _ => false
  end.

(** The list under [key] after the models under [key] were appended. *)
Definition extend (old : option (list json)) (new : list json)
  : option (list json) :=
  match old, new with
  | None, [] => None
  | None, _ => Some new
  | Some models, _ => Some (models ++ new)%list
  end.

Section Kept.
Variable pyfloat : Type.
Variable py_float : json -> result pyfloat.
Variable float_is_zero : pyfloat -> bool.

(** Whether the loop of [get_models_by_capability] appends the model. *)
Definition kept (capability_filter : string) (model : json) : bool :=
  match keep_model pyfloat py_float float_is_zero capability_filter model with
  | Ok keep => keep
  | Raise _ => false
  end.
End Kept.

(** A record whose price is no number. *)
Definition unpriced_model : json :=
  JObj [("id", JStr "vendor/unpriced-model");
        ("endpoint", JObj [("pricing", JObj [("prompt", JStr "n/a")])])].

End ApiCatalogue.

(* ------------------------------------------------------------------ *)
(** ** main.py, recommending models *)

Module Main.
Import Json.

(** Line 165: [any(pattern.lower() in model_id for pattern in ...)]. *)
Definition matches_task (task_model_patterns : list string) (model_id : string)
  : bool :=
  existsb (fun pattern => PyStr.contains (PyText.lower pattern) model_id)
          task_model_patterns.

Definition budget_is_free (budget : option string) : bool :=
  match budget with
  | Some b => String.eqb b "free"
  | None => false
  end.

(** Lines 163-170: the body of the loop; [true] when the model is appended
    to [recommended]. *)
Definition recommends (task_model_patterns : list string)
           (budget : option string) (model : json) : result bool :=
  id <- py_get "id" (JStr "") model ;;
  match id with
  | JStr s =>
      let model_id := PyText.lower s in
      if matches_task task_model_patterns model_id then
        if budget_is_free budget then
          id' <- py_getitem "id" model ;;
          py_in ":free" id'
        else Ok true
      else Ok false
  | _ => Raise AttributeError          (* no [lower] on it *)
  end.

(** Lines 159-170: the loop. *)
Fixpoint recommend_loop (task_model_patterns : list string)
         (budget : option string) (models : list json) : result (list json) :=
  match models with
  | [] => Ok []
  | model :: rest =>
      keep <- recommends task_model_patterns budget model ;;
      recommended <- recommend_loop task_model_patterns budget rest ;;
      Ok (if keep : bool then model :: recommended else recommended)
  end.

(** [a or b] on lists. *)
Definition py_or (a b : list json) : list json :=
  match a with
  | [] => b
  | _ => a
  end.

(** [d.get(key, [])] on the task categories. *)
Fixpoint patterns_of (task_type : string)
         (task_categories : list (string * list string)) : list string :=
  match task_categories with
  | [] => []
  | (k, patterns) :: rest =>
      if String.eqb k task_type then patterns else patterns_of task_type rest
  end.

(** Lines 137-172.  [all_models] is what [get_available_models()]
    returned, [task_categories] the categories in use (the dynamic ones,
    or the built-in patterns when fetching them failed). *)
Definition get_model_recommendations (all_models : list json)
           (task_categories : list (string * list string))
           (task_type budget : option string) : result (list json) :=
  match task_type with
  | None => Ok all_models
  | Some task =>
      if negb (PyStr.truthy task) then Ok all_models
      else
        let task_model_patterns := patterns_of task task_categories in
        recommended <- recommend_loop task_model_patterns budget all_models ;;
        Ok (py_or recommended all_models)
  end.

(** A record with a string id. *)
Definition has_id (model : json) : Prop :=
  exists fields s, model = JObj fields /\ assoc "id" fields = Some (JStr s).

(** The id of a record that has one, and the test of lines 165-170 on
    it. *)
Definition id_of (model : json) : string :=
  match py_get "id" (JStr "") model with
  | Ok (JStr s) => s
  | _ => EmptyString
  end.

Definition selected (task_model_patterns : list string)
           (budget : option string) (model : json) : bool :=
  matches_task task_model_patterns (PyText.lower (id_of model))
  && (negb (budget_is_free budget) || PyStr.contains ":free" (id_of model)).

(** Lines 150-155: the built-in patterns. *)
Definition fallback_categories : list (string * list string) :=
  [("creative", ["claude-3"; "gpt-4"; "llama"; "gemini"]);
   ("coding", ["claude-3-opus"; "gpt-4"; "deepseek-coder"; "qwen-coder";
               "devstral"; "codestral"]);
   ("analysis", ["claude-3-opus"; "gpt-4"; "mistral"; "qwen"]);
   ("chat", ["claude-3-haiku"; "gpt-3.5"; "gemini-pro"; "llama"])].

Definition gpt4_model : json := JObj [("id", JStr "openai/gpt-4")].
Definition mistral_model : json := JObj [("id", JStr "mistralai/Mistral-7B")].

End Main.

(* ------------------------------------------------------------------ *)
(** ** Sample data *)

Module Examples.
Import Chat.

(** A text of [n] characters. *)
Definition text (n : nat) : string := PyStr.replicate n "a"%char.

Definition system_prompt : message :=
  {| role := "system"; content := "You are a helpful AI assistant." |}.

(** A history under the default budget of 8000: 7 + 2000 + 2000 tokens by
    the four-characters-a-token count. *)
Definition short_history : list message :=
  [ system_prompt;
    {| role := "user"; content := text 8000 |};
    {| role := "assistant"; content := text 8000 |} ].

(** A system prompt of 7500 tokens and one message of 600. *)
Definition big_system_history : list message :=
  [ {| role := "system"; content := text 30000 |};
    {| role := "user"; content := text 2400 |} ].

(** 7 + 600 + 600 + 3400 + 3400 = 8007 tokens: under the budget of 8192 until
    the next message arrives. *)
Definition long_history : list message :=
  [ system_prompt;
    {| role := "user"; content := text 2400 |};
    {| role := "assistant"; content := text 2400 |};
    {| role := "user"; content := text 13600 |};
    {| role := "assistant"; content := text 13600 |} ].

End Examples.

(* ================================================================== *)
(** * Properties *)

(* ------------------------------------------------------------------ *)
(** ** Strings *)

Module PyStrFacts.
Import PyStr.

Lemma length_app (a b : string) :
  String.length (a ++ b) = (String.length a + String.length b)%nat.
Proof. induction a as [|c a IH]; simpl; [reflexivity | now rewrite IH]. Qed.

Lemma prefix_drop (p s : string) :
  String.prefix p s = true -> s = p ++ drop (String.length p) s.
Proof.
  revert s; induction p as [|c p IH]; intros s H; simpl in *.
  - now destruct s.
  - destruct s as [|d s]; simpl in H; [discriminate|].
    destruct (Ascii.ascii_dec c d) as [->|]; [|discriminate].
    simpl. f_equal. now apply IH.
Qed.

(** [split1] cuts the string at an occurrence of the separator. *)
Lemma split1_spec (sep s before after : string) :
  split1 sep s = Some (before, after) -> s = before ++ sep ++ after.
Proof.
  revert before after; induction s as [|c s IH]; intros before after H.
  - cbn [split1] in H. destruct (String.prefix sep "") eqn:E; [|discriminate].
    injection H as <- <-. now apply prefix_drop.
  - cbn [split1] in H. destruct (String.prefix sep (String c s)) eqn:E.
    + injection H as <- <-. now apply prefix_drop.
    + destruct (split1 sep s) as [[b a]|]; [|discriminate].
      injection H as <- <-. simpl. f_equal. now apply IH.
Qed.

Lemma split1_length (sep s before after : string) :
  split1 sep s = Some (before, after) ->
  String.length s
  = (String.length before + String.length sep + String.length after)%nat.
Proof.
  intros H. rewrite (split1_spec _ _ _ _ H) at 1.
  rewrite !length_app. lia.
Qed.

Lemma split1_empty (sep : string) :
  sep <> EmptyString -> split1 sep EmptyString = None.
Proof. destruct sep; [congruence | reflexivity]. Qed.

(** A whole match of the pattern, and what follows it, is shorter than the
    text searched: the recursion of [findall] and [sub] is bounded by the
    length. *)
Lemma span_rest_shorter (s before after group rest : string) :
  split1 open_tag s = Some (before, after) ->
  split1 close_tag after = Some (group, rest) ->
  (String.length rest < String.length s)%nat.
Proof.
  intros H1 H2. apply split1_length in H1, H2.
  rewrite H1, H2. unfold open_tag, close_tag. simpl. lia.
Qed.

(** The length is fuel enough for [sub]. *)
Lemma sub_fuel_enough (n m : nat) (s : string) :
  (String.length s <= n)%nat -> (String.length s <= m)%nat ->
  sub_fuel n s = sub_fuel m s.
Proof.
  revert m s; induction n as [|n IH]; intros m s Hn Hm.
  - destruct s; [|simpl in Hn; lia]. now destruct m.
  - destruct m as [|m].
    + destruct s; [|simpl in Hm; lia]. reflexivity.
    + simpl. destruct (split1 open_tag s) as [[before after]|] eqn:E1; [|reflexivity].
      destruct (split1 close_tag after) as [[group rest]|] eqn:E2; [|reflexivity].
      pose proof (span_rest_shorter _ _ _ _ _ E1 E2).
      f_equal. apply IH; lia.
Qed.

(** The same for [findall]. *)
Lemma findall_fuel_enough (n m : nat) (s : string) :
  (String.length s <= n)%nat -> (String.length s <= m)%nat ->
  findall_fuel n s = findall_fuel m s.
Proof.
  revert m s; induction n as [|n IH]; intros m s Hn Hm.
  - destruct s; [|simpl in Hn; lia]. now destruct m.
  - destruct m as [|m].
    + destruct s; [|simpl in Hm; lia]. reflexivity.
    + simpl. destruct (split1 open_tag s) as [[before after]|] eqn:E1; [|reflexivity].
      destruct (split1 close_tag after) as [[group rest]|] eqn:E2; [|reflexivity].
      pose proof (span_rest_shorter _ _ _ _ _ E1 E2).
      f_equal. apply IH; lia.
Qed.

(** The unfolding equations of the two regular-expression calls. *)
Lemma sub_unfold (s : string) :
  sub s =
  match split1 open_tag s with
  | None => s
  | Some (before, after) =>
      match split1 close_tag after with
      | None => s
      | Some (_, rest) => before ++ sub rest
      end
  end.
Proof.
  unfold sub. destruct (String.length s) as [|n] eqn:L.
  - destruct s; [reflexivity | discriminate].
  - simpl. destruct (split1 open_tag s) as [[before after]|] eqn:E1; [|reflexivity].
    destruct (split1 close_tag after) as [[group rest]|] eqn:E2; [|reflexivity].
    pose proof (span_rest_shorter _ _ _ _ _ E1 E2).
    f_equal. apply sub_fuel_enough; lia.
Qed.

Lemma findall_unfold (s : string) :
  findall s =
  match split1 open_tag s with
  | None => []
  | Some (_, after) =>
      match split1 close_tag after with
      | None => []
      | Some (group, rest) => group :: findall rest
      end
  end.
Proof.
  unfold findall. destruct (String.length s) as [|n] eqn:L.
  - destruct s; [reflexivity | discriminate].
  - simpl. destruct (split1 open_tag s) as [[before after]|] eqn:E1; [|reflexivity].
    destruct (split1 close_tag after) as [[group rest]|] eqn:E2; [|reflexivity].
    pose proof (span_rest_shorter _ _ _ _ _ E1 E2).
    f_equal. apply findall_fuel_enough; lia.
Qed.

Lemma strip_empty : strip EmptyString = EmptyString.
Proof. reflexivity. Qed.

Lemma truthy_strip (s : string) : truthy (strip s) = true -> truthy s = true.
Proof. destruct s; [discriminate | reflexivity]. Qed.

End PyStrFacts.

(* ------------------------------------------------------------------ *)
(** ** The context window *)

Module ContextWindowFacts.
Import Chat.

Lemma fold_add_acc (l : list Z) (a : Z) :
  fold_left Z.add l a = a + fold_left Z.add l 0.
Proof.
  revert a; induction l as [|x l IH]; intros a; simpl; [lia|].
  rewrite (IH (a + x)), (IH x). lia.
Qed.

Lemma py_sum_cons (x : Z) (l : list Z) : py_sum (x :: l) = x + py_sum l.
Proof. unfold py_sum; simpl. now rewrite fold_add_acc. Qed.

Section Window.
Variable count_tokens : string -> string -> Z.
Variable max_tokens : Z.
Variable model_name : string.

Local Abbreviation tokens := (history_tokens count_tokens model_name).
Local Abbreviation count :=
  (fun msg : message => count_tokens (content msg) model_name).

Lemma tokens_cons (msg : message) (h : list message) :
  tokens (msg :: h) = count msg + tokens h.
Proof. unfold history_tokens; simpl. apply py_sum_cons. Qed.

Lemma tokens_insert (first msg : message) (tl : list message) :
  tokens (py_insert 1 msg (first :: tl)) = tokens (first :: tl) + count msg.
Proof. unfold py_insert; simpl. rewrite !tokens_cons. lia. Qed.

Lemma trim_inv_start (system_message : message) :
  trim_inv count_tokens max_tokens model_name system_message
           {| trimmed_history := [system_message];
              current_tokens := count system_message;
              trimmed_count := 0 |}.
Proof.
  unfold trim_inv; cbn [trimmed_history current_tokens trimmed_count].
  split; [|split; [|split]].
  - now exists [].
  - rewrite tokens_cons. unfold history_tokens, py_sum; simpl. lia.
  - lia.
  - now left.
Qed.

Lemma trim_inv_step (system_message msg : message) (st : trim_state) :
  trim_inv count_tokens max_tokens model_name system_message st ->
  trim_inv count_tokens max_tokens model_name system_message (consider count_tokens max_tokens model_name st msg).
Proof.
  intros ([tl Htl] & Htok & Hcnt & Hcur). unfold consider.
  destruct (current_tokens st + count_tokens (content msg) model_name
            <? max_tokens - 1000) eqn:E;
    unfold trim_inv; cbn [trimmed_history current_tokens trimmed_count].
  - apply Z.ltb_lt in E. split; [|split; [|split]].
    + rewrite Htl. now exists (msg :: tl).
    + rewrite Htl, tokens_insert, <- Htl, Htok. reflexivity.
    + exact Hcnt.
    + now right.
  - split; [|split; [|split]]; try assumption.
    + now exists tl.
    + lia.
Qed.

Lemma trim_inv_loop (system_message : message) (msgs : list message)
      (st : trim_state) :
  trim_inv count_tokens max_tokens model_name system_message st ->
  trim_inv count_tokens max_tokens model_name system_message
           (fold_left (consider count_tokens max_tokens model_name) msgs st).
Proof.
  revert st; induction msgs as [|msg msgs IH]; intros st H; simpl.
  - exact H.
  - apply IH. now apply trim_inv_step.
Qed.

(** The note goes to index 1 and [without_note] takes it out again. *)
Lemma without_note_insert (first note : message) (tl : list message) (n : Z) :
  0 < n -> without_note (py_insert 1 note (first :: tl), n) = first :: tl.
Proof.
  intros H. unfold without_note.
  apply Z.ltb_lt in H. rewrite H. reflexivity.
Qed.

(** Within the budget nothing is touched. *)
Lemma within_budget_unchanged (system_message : message) (rest : list message) :
  tokens (system_message :: rest) <= max_tokens ->
  manage_context_window count_tokens (system_message :: rest)
                        max_tokens model_name
  = Some (system_message :: rest, 0).
Proof.
  intros H. unfold manage_context_window.
  apply Z.leb_le in H. rewrite H. reflexivity.
Qed.

(** The shape of every result on a non-empty history that exceeds the
    budget. *)
Lemma trimmed_result (system_message : message) (rest : list message) :
  tokens (system_message :: rest) > max_tokens ->
  exists h dropped kept,
    manage_context_window count_tokens (system_message :: rest)
                          max_tokens model_name = Some (h, dropped)
    /\ 0 <= dropped
    /\ hd_error h = Some system_message
    /\ without_note (h, dropped) = system_message :: kept
    /\ (tokens (system_message :: kept) = count system_message
        \/ tokens (system_message :: kept) < max_tokens - 1000).
Proof.
  intros Hover. unfold manage_context_window.
  destruct (tokens (system_message :: rest) <=? max_tokens) eqn:E;
    [apply Z.leb_le in E; lia|].
  pose proof (trim_inv_loop system_message (rev rest) _
                            (trim_inv_start system_message)) as Hinv.
  set (st := fold_left _ _ _) in *.
  destruct Hinv as ([tl Htl] & Htok & Hcnt & Hcur).
  destruct (0 <? trimmed_count st) eqn:Epos.
  - exists (py_insert 1 (trim_note (trimmed_count st)) (trimmed_history st)),
      (trimmed_count st), tl.
    rewrite Htl. split; [|split; [|split; [|split]]];
      try assumption; try reflexivity.
    + apply without_note_insert. now apply Z.ltb_lt.
    + rewrite <- Htl, Htok. exact Hcur.
  - exists (trimmed_history st), (trimmed_count st), tl.
    rewrite Htl. split; [|split; [|split; [|split]]];
      try assumption; try reflexivity.
    + unfold without_note. rewrite Epos. reflexivity.
    + rewrite <- Htl, Htok. exact Hcur.
Qed.


End Window.
End ContextWindowFacts.

Module ContextWindowSpec.
Import Chat ContextWindowFacts Examples.

(** C1, as amended.  On a non-empty history whose token total exceeds the
    budget, [manage_context_window] returns a sequence whose first element
    is the input's first element (the system message).  The token total of
    the returned sequence without the synthesized note is at most the larger
    of the system message's own count and budget - 1001; so it is at most
    budget - 1000 whenever the system message alone counts at most
    budget - 1000 tokens.  The system message is kept whatever its size. *)
Theorem manage_context_window_over_budget
        (count_tokens : string -> string -> Z)
        (system_message : message) (rest : list message)
        (max_tokens : Z) (model_name : string) :
  history_tokens count_tokens model_name (system_message :: rest) > max_tokens ->
  exists h dropped,
    manage_context_window count_tokens (system_message :: rest)
                          max_tokens model_name = Some (h, dropped)
    /\ hd_error h = Some system_message
    /\ history_tokens count_tokens model_name (without_note (h, dropped))
       <= Z.max (count_tokens (content system_message) model_name)
                (max_tokens - 1001)
    /\ (count_tokens (content system_message) model_name <= max_tokens - 1000 ->
        history_tokens count_tokens model_name (without_note (h, dropped))
        <= max_tokens - 1000).
Proof.
  intros Hover.
  destruct (trimmed_result count_tokens max_tokens model_name
                           system_message rest Hover)
    as (h & dropped & kept & Hres & _ & Hhd & Hnote & Hbound).
  exists h, dropped. rewrite Hnote.
  split; [exact Hres|]. split; [exact Hhd|]. split.
  - destruct Hbound as [-> | Hlt]; lia.
  - intros Hsys. destruct Hbound as [-> | Hlt]; lia.
Qed.

Lemma manage_context_window_over_budget_witness :
  exists h dropped,
    manage_context_window Utils.heuristic_count_tokens long_history
                          8000 "cl100k_base" = Some (h, dropped)
    /\ hd_error h = Some system_prompt
    /\ history_tokens Utils.heuristic_count_tokens "cl100k_base"
                      (without_note (h, dropped))
       <= Z.max (Utils.heuristic_count_tokens (content system_prompt) "cl100k_base")
                (8000 - 1001)
    /\ (Utils.heuristic_count_tokens (content system_prompt) "cl100k_base"
        <= 8000 - 1000 ->
        history_tokens Utils.heuristic_count_tokens "cl100k_base"
                       (without_note (h, dropped))
        <= 8000 - 1000).
Proof.
  apply (manage_context_window_over_budget
           Utils.heuristic_count_tokens system_prompt (tl long_history)
           8000 "cl100k_base").
  vm_compute. reflexivity.
Defined.

(** C1 as stated fails: with a system prompt of 7500 tokens and one further
    message of 600, the total 8100 exceeds the budget 8000; the message is
    dropped, the system prompt kept, and the total without the note, 7500,
    is above budget - 1000 = 7000. *)
Lemma manage_context_window_margin_counterexample :
  history_tokens Utils.heuristic_count_tokens "cl100k_base" big_system_history
  > 8000
  /\ option_map (fun r => (map role (fst r), snd r))
       (manage_context_window Utils.heuristic_count_tokens big_system_history
                              8000 "cl100k_base")
     = Some (["system"; "system"], 1)
  /\ option_map (fun r => history_tokens Utils.heuristic_count_tokens
                                         "cl100k_base" (without_note r))
       (manage_context_window Utils.heuristic_count_tokens big_system_history
                              8000 "cl100k_base")
     = Some 7500
  /\ ~ (7500 <= 8000 - 1000).
Proof.
  split; [vm_compute; reflexivity|].
  split; [vm_compute; reflexivity|].
  split; [vm_compute; reflexivity|].
  lia.
Qed.

(** C2, as amended.  On a non-empty history whose token total is at most
    the budget, [manage_context_window] returns the history unchanged
    together with a dropped-message count of 0. *)
Theorem manage_context_window_within_budget
        (count_tokens : string -> string -> Z)
        (system_message : message) (rest : list message)
        (max_tokens : Z) (model_name : string) :
  history_tokens count_tokens model_name (system_message :: rest) <= max_tokens ->
  manage_context_window count_tokens (system_message :: rest)
                        max_tokens model_name
  = Some (system_message :: rest, 0).
Proof. apply within_budget_unchanged. Qed.

Lemma manage_context_window_within_budget_witness :
  manage_context_window Utils.heuristic_count_tokens short_history
                        8000 "cl100k_base"
  = Some (short_history, 0).
Proof.
  apply (manage_context_window_within_budget
           Utils.heuristic_count_tokens system_prompt (tl short_history)
           8000 "cl100k_base").
  vm_compute. discriminate.
Defined.

(** C2 as stated fails on the empty history: its token total, 0, is within
    any budget that is not negative, and the call raises [IndexError]
    instead of returning the history and 0. *)
Lemma manage_context_window_empty_counterexample :
  history_tokens Utils.heuristic_count_tokens "cl100k_base" [] <= 8000
  /\ manage_context_window Utils.heuristic_count_tokens [] 8000 "cl100k_base"
     = None
  /\ manage_context_window Utils.heuristic_count_tokens [] 8000 "cl100k_base"
     <> Some ([], 0).
Proof.
  split; [vm_compute; discriminate|].
  split; [reflexivity | discriminate].
Qed.


End ContextWindowSpec.

(* ------------------------------------------------------------------ *)
(** ** The streaming parser *)

Module StreamFacts.
Import Json Chat PyStrFacts.

Lemma append_empty (s : string) : s ++ "" = s.
Proof. induction s as [|c s IH]; simpl; [reflexivity | now rewrite IH]. Qed.

(** Every delta joins [full_content], whatever the mode and the state. *)
Lemma on_content_full (thinking_mode : bool) (content : string)
      (st : stream_state) :
  full_content (on_content thinking_mode content st)
  = full_content st ++ content.
Proof.
  unfold on_content. destruct thinking_mode; [|reflexivity].
  destruct (PyStr.split1 PyStr.open_tag content) as [[? ?]|]; [reflexivity|].
  destruct (PyStr.split1 PyStr.close_tag content) as [[? ?]|]; [reflexivity|].
  destruct (in_thinking st); reflexivity.
Qed.

(** An event that carries one content delta and nothing else. *)
Lemma on_chunk_data_delta (thinking_mode : bool) (content : string)
      (st : stream_state) :
  on_chunk_data thinking_mode (delta_event content) st
  = (if PyStr.truthy content then on_content thinking_mode content st else st,
     false).
Proof. destruct content; reflexivity. Qed.

(** Chunk boundaries do not show in [full_content]: after a run of deltas
    it is their concatenation. *)
Lemma full_content_deltas (thinking_mode : bool) (deltas : list string)
      (st : stream_state) :
  full_content (consume_data thinking_mode (map delta_event deltas) st)
  = full_content st ++ String.concat "" deltas.
Proof.
  revert st; induction deltas as [|d deltas IH]; intros st.
  - simpl. now rewrite append_empty.
  - cbn [map consume_data]. rewrite on_chunk_data_delta, IH.
    assert (Hd : full_content
                   (if PyStr.truthy d then on_content thinking_mode d st else st)
                 = full_content st ++ d).
    { destruct d; [simpl; now rewrite append_empty | apply on_content_full]. }
    rewrite Hd.
    assert (Hc : String.concat "" (d :: deltas) = d ++ String.concat "" deltas).
    { destruct deltas; simpl; [now rewrite append_empty | reflexivity]. }
    rewrite Hc.
    clear. induction (full_content st) as [|c s IHs]; simpl;
      [reflexivity | now rewrite IHs].
Qed.

(** The visible content is computed from [full_content] alone. *)
Lemma cleaned_from_full (thinking_mode : bool) (previous : string)
      (st : stream_state) :
  cleaned_content (finish thinking_mode previous st)
  = or_greeting (clean_content thinking_mode (full_content st)).
Proof. reflexivity. Qed.

(** So the visible content of a run of deltas depends on their
    concatenation only, not on where the chunks were cut. *)
Lemma visible_content_deltas (thinking_mode : bool) (deltas : list string)
      (previous : string) :
  cleaned_content (stream_events (map delta_event deltas) thinking_mode previous)
  = or_greeting (clean_content thinking_mode (String.concat "" deltas)).
Proof.
  unfold stream_events. rewrite cleaned_from_full, full_content_deltas.
  reflexivity.
Qed.

(** The default response is never empty. *)
Lemma or_greeting_truthy (cleaned : string) :
  PyStr.truthy (or_greeting cleaned) = true.
Proof.
  unfold or_greeting.
  destruct (PyStr.truthy (PyStr.strip cleaned)) eqn:E; simpl.
  - now apply truthy_strip.
  - reflexivity.
Qed.

(** [stream_response] never returns empty content. *)
Lemma stream_response_truthy (json_loads : string -> option json)
      (response : list string) (thinking_mode : bool) (previous : string) :
  PyStr.truthy
    (cleaned_content (stream_response json_loads response thinking_mode previous))
  = true.
Proof. unfold stream_response. rewrite cleaned_from_full. apply or_greeting_truthy. Qed.

Lemma consume_decoded (json_loads : string -> option json)
      (thinking_mode : bool) (response : list string) (events : list json) :
  Forall2 (decodes json_loads) response events ->
  forall st,
    consume json_loads thinking_mode response st
    = consume_data thinking_mode events st.
Proof.
  induction 1 as [|chunk chunk_data response events Hd _ IH]; intros st.
  - reflexivity.
  - destruct Hd as (Ht & Hk & Hdone & Hload).
    cbn [consume consume_data]. unfold on_chunk.
    rewrite Ht, Hk. cbn [negb]. unfold is_done in Hdone.
    cbv zeta. rewrite Hdone, Hload.
    destruct (on_chunk_data thinking_mode chunk_data st) as [st' raised].
    destruct raised; [reflexivity | apply IH].
Qed.

(** The sentinel leaves the state as it is. *)
Lemma consume_done (json_loads : string -> option json)
      (thinking_mode : bool) (response : list string) (st : stream_state) :
  Forall (fun chunk => is_done chunk = true) response ->
  consume json_loads thinking_mode response st = st.
Proof.
  induction 1 as [|chunk response Hd _ IH]; [reflexivity|].
  cbn [consume]. unfold on_chunk. unfold is_done in Hd.
  destruct (negb (PyStr.truthy chunk)); [exact IH|].
  destruct (PyStr.contains "OPENROUTER PROCESSING" chunk); [exact IH|].
  cbv zeta. rewrite Hd. exact IH.
Qed.

(** The three deltas of the split tag, as lines of a response. *)
Lemma split_tag_lines (json_loads : string -> option json)
      (line1 line2 line3 previous : string) :
  decodes json_loads line1 (delta_event "<thi") ->
  decodes json_loads line2 (delta_event "nking>hello</thi") ->
  decodes json_loads line3 (delta_event "nking> world") ->
  stream_response json_loads [line1; line2; line3] true previous
  = {| cleaned_content := "world"; result_usage := None;
       last_thinking_content := "hello" |}.
Proof.
  intros H1 H2 H3. unfold stream_response.
  rewrite (consume_decoded json_loads true [line1; line2; line3]
             [delta_event "<thi"; delta_event "nking>hello</thi";
              delta_event "nking> world"])
    by (repeat (apply Forall2_cons; [assumption|]); apply Forall2_nil).
  vm_compute. reflexivity.
Qed.

End StreamFacts.

Module StreamSpec.
Import Json Chat PyStrFacts StreamFacts.

(** C5, as amended.  With thinking mode enabled, the three content deltas
    [<thi], [nking>hello</thi], [nking> world], fed as three separate
    chunks, yield the thinking content [hello] and the visible content
    [world]: the tag split across chunk boundaries is detected by the pass
    over the full buffer, and the cleaned text is stripped of surrounding
    whitespace. *)
Theorem split_tag_detected (previous : string) :
  stream_events [delta_event "<thi"; delta_event "nking>hello</thi";
                 delta_event "nking> world"] true previous
  = {| cleaned_content := "world"; result_usage := None;
       last_thinking_content := "hello" |}.
Proof. vm_compute. reflexivity. Qed.

(** C5 as stated fails on the leading blank: the visible content is
    [world], not [ world]. *)
Lemma split_tag_visible_counterexample :
  cleaned_content
    (stream_events [delta_event "<thi"; delta_event "nking>hello</thi";
                    delta_event "nking> world"] true "")
  = "world"
  /\ cleaned_content
       (stream_events [delta_event "<thi"; delta_event "nking>hello</thi";
                       delta_event "nking> world"] true "")
     <> " world"
  /\ last_thinking_content
       (stream_events [delta_event "<thi"; delta_event "nking>hello</thi";
                       delta_event "nking> world"] true "")
     = "hello".
Proof.
  split; [vm_compute; reflexivity|].
  split; [vm_compute; discriminate | vm_compute; reflexivity].
Qed.

(** C6.  A stream that holds only the [DONE] sentinel and no content
    delta, and more generally any stream whose cleaned content is empty
    once stripped, makes [stream_response] return the fixed fallback
    greeting as the visible content. *)
Theorem empty_stream_greets (json_loads : string -> option json)
        (response : list string) (thinking_mode : bool) (previous : string) :
  Forall (fun chunk => is_done chunk = true) response
  \/ PyStr.strip
       (clean_content thinking_mode
          (full_content (consume json_loads thinking_mode response initial_state)))
     = "" ->
  cleaned_content (stream_response json_loads response thinking_mode previous)
  = fallback_greeting.
Proof.
  intros H. unfold stream_response. rewrite cleaned_from_full.
  destruct H as [Hdone | Hempty].
  - rewrite (consume_done _ _ _ _ Hdone).
    destruct thinking_mode; reflexivity.
  - unfold or_greeting. rewrite Hempty. reflexivity.
Qed.

Lemma empty_stream_greets_witness :
  cleaned_content (stream_response (fun _ => None) ["data: [DONE]"] true "")
  = fallback_greeting.
Proof.
  apply (empty_stream_greets (fun _ => None) ["data: [DONE]"] true "").
  left. repeat constructor.
Defined.




End StreamSpec.

(* ------------------------------------------------------------------ *)
(** ** One turn of the chat loop *)

Module TurnFacts.
Import Json Chat ContextWindowFacts StreamFacts.


(** An answer is never taken off again. *)
Lemma pop_appended_assistant (h : list message) (answer : string) :
  pop_if_user (h ++ [{| role := "assistant"; content := answer |}])
  = (h ++ [{| role := "assistant"; content := answer |}])%list.
Proof. unfold pop_if_user. rewrite rev_unit. reflexivity. Qed.

Section Turn.
Variable count_tokens : string -> string -> Z.
Variable json_loads : string -> option json.
Variable thinking_mode : bool.
Variable max_tokens : Z.
Variable model_name : string.
Variable previous_thinking : string.

(** A history with a message appended is a non-empty list. *)
Lemma appended_cons (h : list message) (msg : message) :
  exists first rest, (h ++ [msg])%list = first :: rest.
Proof. destruct h as [|a h]; simpl; eauto. Qed.


End Turn.
End TurnFacts.

Module TurnSpec.
Import Json Chat ContextWindowFacts StreamFacts TurnFacts Examples.




End TurnSpec.

(* ------------------------------------------------------------------ *)
(** ** Token counting *)

Module UtilsSpec.
Import Utils.



End UtilsSpec.

(* ------------------------------------------------------------------ *)
(** ** The stored API key *)

Module ConfigSpec.
Import Json Config.

(** [decrypt_api_key] turns every exception into [None]. *)
Lemma decrypt_api_key_returns
      (fernet_valid_key : bytes -> bool)
      (fernet_decrypt : bytes -> bytes -> option bytes)
      (bytes_decode : bytes -> option string)
      (encrypted_key key : bytes) :
  exists v,
    decrypt_api_key fernet_valid_key fernet_decrypt bytes_decode
                    encrypted_key key = Ok v.
Proof.
  unfold decrypt_api_key.
  destruct (decrypt_body _ _ _ _ _); eauto.
Qed.

(** The stand-in satisfies the contract assumed of Fernet below. *)
Lemma toy_round_trip (key : bytes) (e : Byte.byte) (data : bytes) :
  toy_valid_key key = true -> toy_decrypt key (toy_encrypt key e data) = Some data.
Proof.
  destruct key as [|k [|? ?]]; try discriminate. intros _.
  unfold toy_encrypt, toy_decrypt. simpl.
  now rewrite (Byte.byte_dec_lb (eq_refl k)).
Qed.

Lemma toy_rejects (key other : bytes) (e : Byte.byte) (data : bytes) :
  toy_valid_key key = true -> toy_valid_key other = true -> other <> key ->
  toy_decrypt other (toy_encrypt key e data) = None.
Proof.
  destruct key as [|k [|? ?]]; try discriminate.
  destruct other as [|o [|? ?]]; try discriminate. intros _ _ Hne.
  unfold toy_encrypt, toy_decrypt. simpl.
  destruct (Byte.eqb o k) eqn:E; [|reflexivity].
  apply Byte.byte_dec_bl in E. congruence.
Qed.

Section RoundTrip.
Variable entropy : Type.
Variable fernet_generate_key : entropy -> bytes.
Variable fernet_valid_key : bytes -> bool.
Variable fernet_encrypt : bytes -> entropy -> bytes -> bytes.
Variable fernet_decrypt : bytes -> bytes -> option bytes.
Variable str_encode : string -> bytes.
Variable bytes_decode : bytes -> option string.

(** C3.  Under the contract of the Fernet library (a generated key is
    accepted; decrypting a token with the key that made it gives the data
    back; with another key it raises [InvalidToken]) and of UTF-8 (decoding
    an encoded string gives the string back): for every key string and
    every generated master key, decrypting the encrypted key with the same
    master key returns the key string; with a different master key it
    returns [None]; and [decrypt_api_key] raises on no input at all. *)
Theorem api_key_round_trip :
  (forall e, fernet_valid_key (fernet_generate_key e) = true) ->
  (forall key e data,
      fernet_valid_key key = true ->
      fernet_decrypt key (fernet_encrypt key e data) = Some data) ->
  (forall key other e data,
      fernet_valid_key key = true -> fernet_valid_key other = true ->
      other <> key ->
      fernet_decrypt other (fernet_encrypt key e data) = None) ->
  (forall s, bytes_decode (str_encode s) = Some s) ->
  forall (api_key : string) (e_master e_other e_token : entropy),
    let master := generate_key entropy fernet_generate_key e_master in
    let other_master := generate_key entropy fernet_generate_key e_other in
    exists token,
      encrypt_api_key entropy fernet_valid_key fernet_encrypt str_encode
                      api_key master e_token = Ok token
      /\ decrypt_api_key fernet_valid_key fernet_decrypt bytes_decode
                         token master = Ok (Some api_key)
      /\ (other_master <> master ->
          decrypt_api_key fernet_valid_key fernet_decrypt bytes_decode
                          token other_master = Ok None)
      /\ (forall any_token any_key,
            exists v,
              decrypt_api_key fernet_valid_key fernet_decrypt bytes_decode
                              any_token any_key = Ok v).
Proof.
  intros Hgen Hround Hreject Hutf8 api_key e_master e_other e_token.
  cbv zeta. unfold generate_key.
  exists (fernet_encrypt (fernet_generate_key e_master) e_token
                         (str_encode api_key)).
  split; [|split; [|split]].
  - unfold encrypt_api_key. now rewrite Hgen.
  - unfold decrypt_api_key, decrypt_body.
    rewrite Hgen, Hround, Hutf8 by apply Hgen. reflexivity.
  - intros Hne. unfold decrypt_api_key, decrypt_body.
    rewrite Hgen, Hreject by (apply Hgen || exact Hne). reflexivity.
  - intros any_token any_key. apply decrypt_api_key_returns.
Qed.

End RoundTrip.

Lemma api_key_round_trip_witness :
  exists token,
    encrypt_api_key Byte.byte toy_valid_key toy_encrypt list_byte_of_string
                    "sk-or-v1-0123456789abcdef"
                    (generate_key Byte.byte toy_generate_key Byte.x01)
                    Byte.x00 = Ok token
    /\ decrypt_api_key toy_valid_key toy_decrypt
                       (fun b => Some (string_of_list_byte b))
                       token (generate_key Byte.byte toy_generate_key Byte.x01)
       = Ok (Some "sk-or-v1-0123456789abcdef")
    /\ (generate_key Byte.byte toy_generate_key Byte.x02
        <> generate_key Byte.byte toy_generate_key Byte.x01 ->
        decrypt_api_key toy_valid_key toy_decrypt
                        (fun b => Some (string_of_list_byte b))
                        token (generate_key Byte.byte toy_generate_key Byte.x02)
        = Ok None)
    /\ (forall any_token any_key,
          exists v,
            decrypt_api_key toy_valid_key toy_decrypt
                            (fun b => Some (string_of_list_byte b))
                            any_token any_key = Ok v).
Proof.
  apply (api_key_round_trip
           Byte.byte toy_generate_key toy_valid_key toy_encrypt toy_decrypt
           list_byte_of_string (fun b => Some (string_of_list_byte b))).
  - reflexivity.
  - apply toy_round_trip.
  - apply toy_rejects.
  - intros s. now rewrite string_of_list_byte_of_string.
Defined.

End ConfigSpec.

(* ------------------------------------------------------------------ *)
(** ** The model catalogue *)

Module ApiClientSpec.
Import Json ApiClient.

Section Free.
Variable pyfloat : Type.
Variable py_float : json -> result pyfloat.
Variable float_is_zero : pyfloat -> bool.




End Free.


End ApiClientSpec.

(* ------------------------------------------------------------------ *)
(** ** Text helpers *)

Module PyTextFacts.
Import PyText.

Lemma length_take (n : nat) (s : string) :
  String.length (take n s) = Nat.min n (String.length s).
Proof.
  revert s; induction n as [|n IH]; intros [|c s]; simpl; try reflexivity.
  now rewrite IH.
Qed.

Lemma take_all (n : nat) (s : string) :
  (String.length s <= n)%nat -> take n s = s.
Proof.
  revert s; induction n as [|n IH]; intros [|c s] H; simpl in *;
    try reflexivity; try lia.
  f_equal. apply IH. lia.
Qed.

Lemma all_chars_app (p : ascii -> bool) (a b : string) :
  all_chars p (a ++ b) = all_chars p a && all_chars p b.
Proof.
  induction a as [|c a IH]; simpl; [reflexivity|].
  now rewrite IH, andb_assoc.
Qed.

Lemma all_chars_lstrip (p : ascii -> bool) (chars s : string) :
  all_chars p s = true -> all_chars p (lstrip_chars chars s) = true.
Proof.
  induction s as [|c s IH]; simpl; [reflexivity|].
  intros H. apply andb_prop in H as [Hc Hs].
  destruct (mem_char c chars); [now apply IH|].
  simpl. now rewrite Hc, Hs.
Qed.

Lemma all_chars_rstrip (p : ascii -> bool) (chars s : string) :
  all_chars p s = true -> all_chars p (rstrip_chars chars s) = true.
Proof.
  induction s as [|c s IH]; simpl; [reflexivity|].
  intros H. apply andb_prop in H as [Hc Hs]. specialize (IH Hs).
  destruct (rstrip_chars chars s) as [|d r].
  - destruct (mem_char c chars); simpl; [reflexivity | now rewrite Hc].
  - change (all_chars p (String c (String d r)))
      with (p c && all_chars p (String d r)).
    now rewrite Hc, IH.
Qed.

(** What is left after [lstrip] does not start with a stripped character. *)
Lemma lstrip_first (chars s : string) (c : ascii) :
  first_char (lstrip_chars chars s) = Some c -> mem_char c chars = false.
Proof.
  induction s as [|d s IH]; simpl; [discriminate|].
  destruct (mem_char d chars) eqn:E; [exact IH|].
  simpl. intros [= <-]. exact E.
Qed.

(** [rstrip] keeps the first character of what it does not empty, and what
    it leaves does not end with a stripped character. *)
Lemma rstrip_first (chars s : string) (c : ascii) :
  first_char (rstrip_chars chars s) = Some c -> first_char s = Some c.
Proof.
  destruct s as [|d s]; simpl; [discriminate|].
  destruct (rstrip_chars chars s).
  - destruct (mem_char d chars); [discriminate | trivial].
  - trivial.
Qed.

Lemma rstrip_last (chars s : string) (c : ascii) :
  last_char (rstrip_chars chars s) = Some c -> mem_char c chars = false.
Proof.
  induction s as [|d s IH]; simpl; [discriminate|].
  destruct (rstrip_chars chars s) as [|e r] eqn:E.
  - destruct (mem_char d chars) eqn:Ed; [discriminate|].
    simpl. intros [= <-]. exact Ed.
  - intros H. apply IH. exact H.
Qed.

Lemma rstrip_idem (chars s : string) :
  rstrip_chars chars (rstrip_chars chars s) = rstrip_chars chars s.
Proof.
  induction s as [|d s IH]; simpl; [reflexivity|].
  destruct (rstrip_chars chars s) as [|e r] eqn:E.
  - destruct (mem_char d chars) eqn:Ed; simpl; [reflexivity|].
    now rewrite Ed.
  - cbn [rstrip_chars] in *. fold (rstrip_chars chars (String e r)).
    rewrite IH. reflexivity.
Qed.

Lemma lstrip_fixed (chars s : string) :
  (forall c, first_char s = Some c -> mem_char c chars = false) ->
  lstrip_chars chars s = s.
Proof.
  destruct s as [|d s]; simpl; [reflexivity|].
  intros H. now rewrite (H d eq_refl).
Qed.

(** Stripping twice is stripping once. *)
Lemma strip_chars_idem (chars s : string) :
  strip_chars chars (strip_chars chars s) = strip_chars chars s.
Proof.
  unfold strip_chars.
  rewrite (lstrip_fixed chars (rstrip_chars chars (lstrip_chars chars s))).
  - apply rstrip_idem.
  - intros c H. apply rstrip_first in H. now apply lstrip_first in H.
Qed.

End PyTextFacts.

Module TextUtilsSpec.
Import PyText PyTextFacts PyStrFacts TextUtils.

(** A name without invalid characters is left alone by the replacement. *)
Lemma replace_invalid_fixed (s : string) :
  all_chars (fun c => negb (mem_char c invalid_chars)) s = true ->
  replace_invalid s = s.
Proof.
  induction s as [|c s IH]; [reflexivity|].
  cbn [replace_invalid all_chars].
  intros H. apply andb_prop in H as [Hc Hs].
  apply negb_true_iff in Hc. rewrite Hc. f_equal. now apply IH.
Qed.

Lemma replace_invalid_valid (s : string) :
  all_chars (fun c => negb (mem_char c invalid_chars)) (replace_invalid s)
  = true.
Proof.
  induction s as [|c s IH]; [reflexivity|].
  cbn [replace_invalid all_chars]. rewrite IH, andb_true_r.
  destruct (mem_char c invalid_chars) eqn:E; [reflexivity|].
  now rewrite E.
Qed.

(** X3.  For a limit that is not negative, [truncate_text] never returns
    more than [max_length] characters, returns a text that fits unchanged,
    and truncating its result again changes nothing. *)
Theorem truncate_text_bound (text suffix : string) (max_length : Z) :
  0 <= max_length ->
  Z.of_nat (String.length (truncate_text text max_length suffix)) <= max_length
  /\ (Z.of_nat (String.length text) <= max_length ->
      truncate_text text max_length suffix = text)
  /\ truncate_text (truncate_text text max_length suffix) max_length suffix
     = truncate_text text max_length suffix.
Proof.
  intros Hmax.
  assert (Hfit : forall t, Z.of_nat (String.length t) <= max_length ->
                           truncate_text t max_length suffix = t).
  { intros t Ht. unfold truncate_text. apply Z.leb_le in Ht. now rewrite Ht. }
  assert (Hlen : Z.of_nat (String.length (truncate_text text max_length suffix))
                 <= max_length).
  { unfold truncate_text.
    destruct (Z.of_nat (String.length text) <=? max_length) eqn:E1;
      [now apply Z.leb_le|].
    apply Z.leb_gt in E1.
    destruct (max_length - Z.of_nat (String.length suffix) <=? 0) eqn:E2.
    - unfold slice_to. apply Z.leb_le in Hmax. rewrite Hmax.
      rewrite length_take. lia.
    - apply Z.leb_gt in E2. unfold slice_to.
      assert (H0 : (0 <=? max_length - Z.of_nat (String.length suffix)) = true)
        by (apply Z.leb_le; lia).
      rewrite H0, length_app, length_take. lia. }
  split; [exact Hlen|]. split; [apply Hfit|]. now apply Hfit.
Qed.

Lemma truncate_text_bound_witness :
  Z.of_nat (String.length (truncate_text "The quick brown fox" 10 "...")) <= 10
  /\ (Z.of_nat (String.length "The quick brown fox") <= 10 ->
      truncate_text "The quick brown fox" 10 "..." = "The quick brown fox")
  /\ truncate_text (truncate_text "The quick brown fox" 10 "...") 10 "..."
     = truncate_text "The quick brown fox" 10 "...".
Proof.
  apply (truncate_text_bound "The quick brown fox" "..." 10). lia.
Defined.

(** X4.  When the text is longer than [max_length] and the suffix shorter,
    the result has exactly [max_length] characters: the first
    [max_length - len(suffix)] characters of the text, then the suffix. *)
Theorem truncate_text_cut (text suffix : string) (max_length : Z) :
  max_length < Z.of_nat (String.length text) ->
  Z.of_nat (String.length suffix) < max_length ->
  truncate_text text max_length suffix
  = take (Z.to_nat (max_length - Z.of_nat (String.length suffix))) text
    ++ suffix
  /\ Z.of_nat (String.length (truncate_text text max_length suffix))
     = max_length.
Proof.
  intros Hlong Hsuf. unfold truncate_text, slice_to.
  assert (E1 : (Z.of_nat (String.length text) <=? max_length) = false)
    by (apply Z.leb_gt; lia).
  assert (E2 : (max_length - Z.of_nat (String.length suffix) <=? 0) = false)
    by (apply Z.leb_gt; lia).
  assert (E3 : (0 <=? max_length - Z.of_nat (String.length suffix)) = true)
    by (apply Z.leb_le; lia).
  rewrite E1, E2, E3. split; [reflexivity|].
  rewrite length_app, length_take. lia.
Qed.

Lemma truncate_text_cut_witness :
  truncate_text "The quick brown fox" 10 "..."
  = take (Z.to_nat (10 - Z.of_nat (String.length "..."))) "The quick brown fox"
    ++ "..."
  /\ Z.of_nat (String.length (truncate_text "The quick brown fox" 10 "..."))
     = 10.
Proof.
  apply (truncate_text_cut "The quick brown fox" "..." 10); simpl; lia.
Defined.

(** X5.  [safe_filename] never returns an empty name, its result holds
    none of the invalid characters, and it neither starts nor ends with a
    blank or a dot. *)
Theorem safe_filename_safe (filename : string) :
  PyStr.truthy (safe_filename filename) = true
  /\ all_chars (fun c => negb (mem_char c invalid_chars))
               (safe_filename filename) = true
  /\ (forall c, first_char (safe_filename filename) = Some c ->
                mem_char c " ." = false)
  /\ (forall c, last_char (safe_filename filename) = Some c ->
                mem_char c " ." = false).
Proof.
  unfold safe_filename.
  destruct (PyStr.truthy (strip_chars " ." (replace_invalid filename))) eqn:E;
    cbn [negb].
  - split; [exact E|]. split; [|split].
    + unfold strip_chars. apply all_chars_rstrip, all_chars_lstrip.
      apply replace_invalid_valid.
    + intros c H. unfold strip_chars in H.
      apply rstrip_first in H. now apply lstrip_first in H.
    + intros c H. unfold strip_chars in H. now apply rstrip_last in H.
  - split; [reflexivity|]. split; [reflexivity|].
    split; intros c [= <-]; reflexivity.
Qed.

(** X6.  [safe_filename] is idempotent: a name it has made safe is returned
    as it is. *)
Theorem safe_filename_idempotent (filename : string) :
  safe_filename (safe_filename filename) = safe_filename filename.
Proof.
  unfold safe_filename at 2 3.
  destruct (PyStr.truthy (strip_chars " ." (replace_invalid filename))) eqn:E;
    cbn [negb].
  - unfold safe_filename.
    rewrite replace_invalid_fixed.
    + rewrite strip_chars_idem, E. reflexivity.
    + unfold strip_chars. apply all_chars_rstrip, all_chars_lstrip.
      apply replace_invalid_valid.
  - reflexivity.
Qed.

End TextUtilsSpec.

(* ------------------------------------------------------------------ *)
(** ** Attachments and saved conversations *)

Module FileHandlerSpec.
Import PyText PyTextFacts FileHandler.

Lemma append_assoc (a b c : string) : a ++ (b ++ c) = (a ++ b) ++ c.
Proof. induction a as [|d a IH]; simpl; [reflexivity | now rewrite IH]. Qed.

Lemma replace_char_app (c : ascii) (by_ a b : string) :
  replace_char c by_ (a ++ b) = replace_char c by_ a ++ replace_char c by_ b.
Proof.
  induction a as [|d a IH]; simpl; [reflexivity|].
  rewrite IH. destruct (Ascii.eqb d c); [|reflexivity].
  apply append_assoc.
Qed.

(** The five replacements on one leading character. *)
Lemma escape_html_cons (c : ascii) (rest : string) :
  _escape_html (String c rest) = html_entity c ++ _escape_html rest.
Proof.
  unfold _escape_html, html_entity. cbn [replace_char].
  destruct (Ascii.eqb_spec c "&") as [->|Hamp].
  { rewrite !replace_char_app. reflexivity. }
  cbn [replace_char].
  destruct (Ascii.eqb_spec c "<") as [->|Hlt].
  { rewrite !replace_char_app. reflexivity. }
  cbn [replace_char].
  destruct (Ascii.eqb_spec c ">") as [->|Hgt].
  { rewrite !replace_char_app. reflexivity. }
  cbn [replace_char].
  destruct (Ascii.eqb_spec c dquote) as [->|Hq].
  { rewrite !replace_char_app. reflexivity. }
  cbn [replace_char].
  destruct (Ascii.eqb_spec c "'") as [->|Ha]; reflexivity.
Qed.

Lemma html_entity_safe (c : ascii) :
  all_chars (fun d => negb (mem_char d ("<>'" ++ String dquote "")))
            (html_entity c) = true.
Proof.
  unfold html_entity.
  destruct (Ascii.eqb_spec c "&") as [->|Hamp]; [reflexivity|].
  destruct (Ascii.eqb_spec c "<") as [->|Hlt]; [reflexivity|].
  destruct (Ascii.eqb_spec c ">") as [->|Hgt]; [reflexivity|].
  destruct (Ascii.eqb_spec c dquote) as [->|Hq]; [reflexivity|].
  destruct (Ascii.eqb_spec c "'") as [->|Ha]; [reflexivity|].
  cbn [all_chars mem_char append]. rewrite andb_true_r, orb_false_r.
  apply Ascii.eqb_neq in Hlt, Hgt, Hq, Ha.
  now rewrite Hlt, Hgt, Hq, Ha.
Qed.

(** X7.  The five replacements of [_escape_html] amount to one pass that
    turns each of the five special characters into its entity, and the
    result holds no angle bracket and no quote. *)
Theorem escape_html_single_pass (text : string) :
  _escape_html text = escape_pass text
  /\ all_chars (fun d => negb (mem_char d ("<>'" ++ String dquote "")))
               (_escape_html text) = true.
Proof.
  induction text as [|c rest [IH1 IH2]]; [split; reflexivity|].
  rewrite escape_html_cons. split.
  - cbn [escape_pass]. now rewrite IH1.
  - rewrite all_chars_app, html_entity_safe, IH2. reflexivity.
Qed.

(** X8.  [_is_valid_image] accepts only data that starts with one of the
    bytes 0xFF, 0x89, 0x47, 0x52; the extension [.bmp] passes the
    extension check and is handled as an image, yet no data that starts
    with the BMP signature (0x42 0x4D) passes the header check. *)
Theorem bmp_never_valid :
  (forall b rest,
      _is_valid_image (b :: rest) = true ->
      In b [Byte.xff; Byte.x89; Byte.x47; Byte.x52])
  /\ _is_valid_image [] = false
  /\ check_extension ".bmp" = None
  /\ (forall readable, file_type_of ".bmp" readable = "image")
  /\ (forall rest, _is_valid_image (Byte.x42 :: Byte.x4d :: rest) = false).
Proof.
  split; [|split; [|split; [|split]]]; try reflexivity.
  intros b rest H. unfold _is_valid_image in H. cbn [bytes_startswith] in H.
  destruct (Byte.eqb Byte.xff b) eqn:E1;
    [apply Byte.byte_dec_bl in E1; subst; simpl; tauto|].
  destruct (Byte.eqb Byte.x89 b) eqn:E2;
    [apply Byte.byte_dec_bl in E2; subst; simpl; tauto|].
  destruct (Byte.eqb Byte.x47 b) eqn:E3;
    [apply Byte.byte_dec_bl in E3; subst; simpl; tauto|].
  destruct (Byte.eqb Byte.x52 b) eqn:E4;
    [apply Byte.byte_dec_bl in E4; subst; simpl; tauto|].
  discriminate.
Qed.

(** Membership in a list of strings, as a disjunction. *)
Lemma mem_In (x : string) (l : list string) : mem x l = true -> In x l.
Proof.
  unfold mem. intros H. apply existsb_exists in H as (y & Hy & E).
  apply String.eqb_eq in E. now subst.
Qed.

(** X9.  No extension is ever refused as executable: whatever passes the
    allow-list is not on the list of dangerous extensions, so that check of
    [validate_file_security] never fires.  And an accepted extension is
    always handled as image, code, text, data or web content, never as PDF,
    archive or binary. *)
Theorem accepted_extensions (file_ext : string) :
  check_extension file_ext <> Some Executable
  /\ (check_extension file_ext = None ->
      forall readable,
        In (file_type_of file_ext readable)
           ["image"; "code"; "text"; "data"; "web"]).
Proof.
  unfold check_extension.
  destruct (mem file_ext ALLOWED_FILE_EXTENSIONS) eqn:E; cbn [negb].
  - apply mem_In in E. unfold ALLOWED_FILE_EXTENSIONS in E.
    repeat (destruct E as [<- | E];
            [split; [discriminate | intros _ readable; vm_compute; tauto]|]).
    destruct E.
  - split; [discriminate | discriminate].
Qed.

End FileHandlerSpec.

(* ------------------------------------------------------------------ *)
(** ** The request body *)

Module RequestSpec.
Import Chat ChatLoop ContextWindowFacts PyStrFacts.

(** A text that starts with a character that is no blank does not strip to
    nothing. *)
Lemma strip_truthy (c : ascii) (s : string) :
  PyStr.isspace c = false -> PyStr.truthy (PyStr.strip (String c s)) = true.
Proof.
  intros H. unfold PyStr.strip. cbn [PyStr.lstrip]. rewrite H.
  cbn [PyStr.rstrip]. destruct (PyStr.rstrip s); [now rewrite H | reflexivity].
Qed.

Lemma keep_valid_role_role (m m' : message) :
  keep_valid_role m = Some m' ->
  m' = m /\ In (role m) ["system"; "user"; "assistant"].
Proof.
  unfold keep_valid_role.
  destruct (FileHandler.mem (role m) ["system"; "user"; "assistant"]) eqn:E;
    [|discriminate].
  intros [= <-]. split; [reflexivity|].
  unfold FileHandler.mem in E. apply existsb_exists in E as (r & Hr & E).
  apply String.eqb_eq in E. now subst.
Qed.

(** X10.  For a model whose name contains [gemma] (in any case) no message
    of the request has the role [system]: a system message whose content
    is blank is left out, any other one is sent as a user message that
    starts with [Please follow these instructions: ]. *)
Theorem gemma_request_has_no_system_message
        (model : string) (conversation_history : list message) :
  PyStr.contains "gemma" (PyText.lower model) = true ->
  Forall (fun m => role m <> "system")
         (clean_conversation model conversation_history)
  /\ (forall text,
        clean_message model {| role := "system"; content := text |}
        = if PyStr.truthy (PyStr.strip text)
          then Some {| role := "user";
                       content := "Please follow these instructions: " ++ text |}
          else None).
Proof.
  intros Hg. split.
  - induction conversation_history as [|msg rest IH]; [constructor|].
    cbn [clean_conversation].
    destruct (clean_message model msg) as [m|] eqn:E; [|exact IH].
    constructor; [|exact IH].
    unfold clean_message in E. rewrite Hg in E.
    destruct (String.eqb (role msg) "system") eqn:Er.
    + destruct (PyStr.truthy (content msg)
                && PyStr.truthy (PyStr.strip (content msg))); [|discriminate].
      apply keep_valid_role_role in E as [-> _]. discriminate.
    + apply keep_valid_role_role in E as [-> _].
      now apply String.eqb_neq in Er.
  - intros text. unfold clean_message. cbn [role content].
    change (String.eqb "system" "system") with true. cbn iota. rewrite Hg.
    destruct text as [|c text]; [reflexivity|].
    cbn [PyStr.truthy andb].
    destruct (PyStr.truthy (PyStr.strip (String c text))); reflexivity.
Qed.

Lemma gemma_request_has_no_system_message_witness :
  Forall (fun m => role m <> "system")
         (clean_conversation "google/Gemma-2-9b-it"
            [{| role := "system"; content := "Be brief." |};
             {| role := "user"; content := "Hi" |}])
  /\ (forall text,
        clean_message "google/Gemma-2-9b-it"
                      {| role := "system"; content := text |}
        = if PyStr.truthy (PyStr.strip text)
          then Some {| role := "user";
                       content := "Please follow these instructions: " ++ text |}
          else None).
Proof.
  apply (gemma_request_has_no_system_message "google/Gemma-2-9b-it"
           [{| role := "system"; content := "Be brief." |};
            {| role := "user"; content := "Hi" |}]).
  reflexivity.
Defined.

(** X11.  Every message of the request has one of the three roles of the
    API; for a model that is no Gemma model the request is the history
    without the messages of any other role, so a history of system, user
    and assistant messages is sent as it is. *)
Theorem request_roles (model : string) (conversation_history : list message) :
  Forall (fun m => In (role m) ["system"; "user"; "assistant"])
         (clean_conversation model conversation_history)
  /\ (PyStr.contains "gemma" (PyText.lower model) = false ->
      clean_conversation model conversation_history
      = filter (fun m => FileHandler.mem (role m) ["system"; "user"; "assistant"])
               conversation_history)
  /\ (PyStr.contains "gemma" (PyText.lower model) = false ->
      Forall (fun m => In (role m) ["system"; "user"; "assistant"])
             conversation_history ->
      clean_conversation model conversation_history = conversation_history).
Proof.
  assert (Hfilter : PyStr.contains "gemma" (PyText.lower model) = false ->
            forall h, clean_conversation model h
            = filter (fun m => FileHandler.mem (role m)
                                 ["system"; "user"; "assistant"]) h).
  { intros Hg h. induction h as [|msg rest IH]; [reflexivity|].
    cbn [clean_conversation filter]. unfold clean_message. rewrite Hg.
    assert (E : (if String.eqb (role msg) "system"
                 then keep_valid_role msg else keep_valid_role msg)
                = keep_valid_role msg)
      by (destruct (String.eqb (role msg) "system"); reflexivity).
    rewrite E. unfold keep_valid_role.
    destruct (FileHandler.mem (role msg) ["system"; "user"; "assistant"]);
      now rewrite IH. }
  split; [|split].
  - induction conversation_history as [|msg rest IH]; [constructor|].
    cbn [clean_conversation].
    destruct (clean_message model msg) as [m|] eqn:E; [|exact IH].
    constructor; [|exact IH].
    unfold clean_message in E.
    destruct (String.eqb (role msg) "system");
      [destruct (PyStr.contains "gemma" (PyText.lower model));
       [destruct (PyStr.truthy (content msg)
                  && PyStr.truthy (PyStr.strip (content msg)));
        [|discriminate]|]|];
      apply keep_valid_role_role in E as [-> H]; exact H.
  - intros Hg. now apply Hfilter.
  - intros Hg Hall. rewrite (Hfilter Hg).
    induction Hall as [|msg rest Hm _ IH]; [reflexivity|].
    cbn [filter].
    assert (E : FileHandler.mem (role msg) ["system"; "user"; "assistant"] = true).
    { unfold FileHandler.mem. apply existsb_exists. exists (role msg).
      split; [exact Hm | apply String.eqb_refl]. }
    now rewrite E, IH.
Qed.

(** The shape of a trimmed history: the system message, the note, then the
    messages that were kept. *)
Lemma trimmed_shape (count_tokens : string -> string -> Z)
      (system_message : message) (rest h : list message)
      (max_tokens dropped : Z) (model_name : string) :
  manage_context_window count_tokens (system_message :: rest)
                        max_tokens model_name = Some (h, dropped) ->
  0 < dropped ->
  exists kept, h = system_message :: trim_note dropped :: kept.
Proof.
  unfold manage_context_window.
  destruct (history_tokens count_tokens model_name (system_message :: rest)
            <=? max_tokens).
  - intros [= <- <-]. lia.
  - pose proof (trim_inv_loop count_tokens max_tokens model_name
                  system_message (rev rest) _
                  (trim_inv_start count_tokens max_tokens model_name
                                  system_message)) as Hinv.
    set (st := fold_left _ _ _) in *.
    destruct Hinv as ([tl Htl] & _).
    destruct (0 <? trimmed_count st) eqn:E.
    + intros [= <- <-] _. exists tl. rewrite Htl. reflexivity.
    + intros [= <- <-] Hpos. apply Z.ltb_ge in E. lia.
Qed.

(** X12.  Trimming and the Gemma conversion compose: when messages were
    dropped, the note that trimming inserts as a system message is sent to
    a Gemma model as a user message, [Please follow these instructions:
    Note: N earlier messages have been removed ...]. *)
Theorem gemma_receives_trim_note_as_user
        (count_tokens : string -> string -> Z) (model : string)
        (system_message : message) (rest h : list message)
        (max_tokens dropped : Z) :
  PyStr.contains "gemma" (PyText.lower model) = true ->
  manage_context_window count_tokens (system_message :: rest)
                        max_tokens model = Some (h, dropped) ->
  0 < dropped ->
  exists kept,
    h = system_message :: trim_note dropped :: kept
    /\ clean_conversation model (trim_note dropped :: kept)
       = {| role := "user";
            content := "Please follow these instructions: "
                       ++ content (trim_note dropped) |}
         :: clean_conversation model kept.
Proof.
  intros Hg Hres Hpos.
  destruct (trimmed_shape _ _ _ _ _ _ _ Hres Hpos) as [kept ->].
  exists kept. split; [reflexivity|].
  cbn [clean_conversation]. unfold clean_message.
  cbn [role content trim_note].
  change (String.eqb "system" "system") with true. cbn iota. rewrite Hg.
  change ("Note: " ++ PyStr.of_Z dropped ++
          " earlier messages have been removed to stay within the context window.")
    with (String "N" ("ote: " ++ PyStr.of_Z dropped ++
          " earlier messages have been removed to stay within the context window.")).
  rewrite strip_truthy by reflexivity. reflexivity.
Qed.

Lemma gemma_receives_trim_note_as_user_witness :
  exists kept,
    [Examples.system_prompt; trim_note 1]
    = Examples.system_prompt :: trim_note 1 :: kept
    /\ clean_conversation "google/gemma-2-9b-it" (trim_note 1 :: kept)
       = {| role := "user";
            content := "Please follow these instructions: "
                       ++ content (trim_note 1) |}
         :: clean_conversation "google/gemma-2-9b-it" kept.
Proof.
  apply (gemma_receives_trim_note_as_user
           Utils.heuristic_count_tokens "google/gemma-2-9b-it"
           Examples.system_prompt
           [{| role := "user"; content := Examples.text 8000 |}]
           [Examples.system_prompt; trim_note 1] 1500 1).
  - reflexivity.
  - vm_compute. reflexivity.
  - lia.
Defined.

End RequestSpec.

(* ------------------------------------------------------------------ *)
(** ** Commands *)

Module CommandSpec.
Import Chat ChatLoop PyStrFacts.

Lemma lower_app (a b : string) :
  PyText.lower (a ++ b) = PyText.lower a ++ PyText.lower b.
Proof. induction a as [|c a IH]; simpl; [reflexivity | now rewrite IH]. Qed.

(** A text without blanks does not split at a blank. *)
Lemma split1_no_blank (s : string) :
  PyText.all_chars (fun c => negb (Ascii.eqb c " ")) s = true ->
  PyStr.split1 " " s = None.
Proof.
  induction s as [|c s IH]; [reflexivity|].
  cbn [PyText.all_chars]. intros H. apply andb_prop in H as [Hc Hs].
  apply negb_true_iff, Ascii.eqb_neq in Hc.
  cbn [PyStr.split1 String.prefix].
  destruct (ascii_dec " " c) as [E|_]; [congruence|].
  now rewrite (IH Hs).
Qed.

(** Lowering a text makes no blank disappear. *)
Lemma lower_no_blank (s : string) :
  PyText.all_chars (fun c => negb (Ascii.eqb c " ")) (PyText.lower s) = true ->
  PyText.all_chars (fun c => negb (Ascii.eqb c " ")) s = true.
Proof.
  induction s as [|c s IH]; [reflexivity|].
  cbn [PyText.lower PyText.all_chars]. intros H.
  apply andb_prop in H as [Hc Hs]. rewrite (IH Hs), andb_true_r.
  destruct (Ascii.eqb_spec c " ") as [->|]; [exact Hc | reflexivity].
Qed.

(** The save command is taken on the exact word only. *)
Lemma dispatch_save (user_input : string) :
  dispatch user_input = CmdSave -> PyText.lower user_input = "/save".
Proof.
  unfold dispatch. cbv zeta.
  repeat match goal with
         | |- (if ?b then _ else _) = _ -> _ =>
             let E := fresh "E" in destruct b eqn:E; try discriminate
         end.
  intros _.
  match goal with
  | H : String.eqb _ "/save" = true |- _ => now apply String.eqb_eq in H
  end.
Qed.

(** X13.  The file name branch of [/save] is never taken: the command is
    recognised only when the input, lowered, is exactly [/save], and then
    the input has no blank to split at; [/save] followed by anything else
    is an unknown command. *)
Theorem save_takes_no_argument (user_input name : string) :
  (dispatch user_input = CmdSave ->
   save_filename_argument user_input = None)
  /\ (name <> "" -> dispatch ("/save" ++ name) = CmdUnknown).
Proof.
  split.
  - intros H. apply dispatch_save in H. unfold save_filename_argument.
    rewrite split1_no_blank; [reflexivity|].
    apply lower_no_blank. rewrite H. reflexivity.
  - intros Hname. destruct name as [|c name]; [congruence|].
    unfold dispatch. cbv zeta. rewrite lower_app.
    cbn [PyText.lower append]. reflexivity.
Qed.

Lemma save_takes_no_argument_witness :
  (dispatch "/SAVE" = CmdSave -> save_filename_argument "/SAVE" = None)
  /\ (" notes.md" <> "" -> dispatch ("/save" ++ " notes.md") = CmdUnknown).
Proof. exact (save_takes_no_argument "/SAVE" " notes.md"). Defined.

Lemma append_longer (a b : string) : b <> "" -> a ++ b <> a.
Proof.
  intros Hb E. apply (f_equal String.length) in E.
  rewrite length_app in E. destruct b; [congruence | simpl in E; lia].
Qed.

Lemma thinking_instruction_differs (instructions : string) :
  thinking_instruction instructions <> instructions.
Proof. unfold thinking_instruction. apply append_longer. discriminate. Qed.

(** X14.  On a history headed by a system message, [/thinking-mode] flips
    the mode and rewrites that message to the prompt of the new mode,
    leaving the other messages alone; when the message held the prompt of
    the current mode, as it does in a fresh session, two toggles give the
    session back. *)
Theorem thinking_mode_toggle (s : session) (first : message)
        (rest : list message) :
  conversation_history s = first :: rest ->
  role first = "system" ->
  thinking_mode (cmd_thinking_mode s) = negb (thinking_mode s)
  /\ conversation_history (cmd_thinking_mode s)
     = {| role := "system";
          content := system_prompt_for (negb (thinking_mode s))
                                       (system_instructions s) |} :: rest
  /\ (content first
      = system_prompt_for (thinking_mode s) (system_instructions s) ->
      cmd_thinking_mode (cmd_thinking_mode s) = s).
Proof.
  destruct s as [mode instructions h]. cbn [conversation_history].
  intros -> Hrole. destruct first as [r c]. cbn [role] in Hrole. subst r.
  unfold cmd_thinking_mode. cbn.
  split; [reflexivity|]. split; [reflexivity|].
  intros ->. now rewrite negb_involutive.
Qed.

Lemma thinking_mode_toggle_witness :
  thinking_mode (cmd_thinking_mode (initial_session true "Be brief."))
  = negb (thinking_mode (initial_session true "Be brief."))
  /\ conversation_history (cmd_thinking_mode (initial_session true "Be brief."))
     = {| role := "system";
          content :=
            system_prompt_for
              (negb (thinking_mode (initial_session true "Be brief.")))
              (system_instructions (initial_session true "Be brief.")) |} :: []
  /\ (content {| role := "system";
                 content := system_prompt_for true "Be brief." |}
      = system_prompt_for (thinking_mode (initial_session true "Be brief."))
                          (system_instructions (initial_session true "Be brief.")) ->
      cmd_thinking_mode (cmd_thinking_mode (initial_session true "Be brief."))
      = initial_session true "Be brief.").
Proof.
  apply (thinking_mode_toggle (initial_session true "Be brief.")
           {| role := "system"; content := system_prompt_for true "Be brief." |}
           []); reflexivity.
Defined.

(** X15.  [/clear] and [/system <text>] write the bare system instructions
    into the first message whatever the mode: in thinking mode the mode
    stays on while the system message no longer is the thinking prompt the
    session started with. *)
Theorem clear_drops_thinking_instruction (s : session) (text : string) :
  thinking_mode s = true ->
  conversation_history s <> [] ->
  (thinking_mode (cmd_clear s) = true
   /\ conversation_history (cmd_clear s)
      = [{| role := "system"; content := system_instructions s |}]
   /\ system_instructions s
      <> system_prompt_for (thinking_mode (cmd_clear s))
                           (system_instructions (cmd_clear s)))
  /\ (thinking_mode (cmd_system text s) = true
      /\ hd_error (conversation_history (cmd_system text s))
         = Some {| role := "system"; content := text |}
      /\ tl (conversation_history (cmd_system text s))
         = tl (conversation_history s)
      /\ text
         <> system_prompt_for (thinking_mode (cmd_system text s))
                              (system_instructions (cmd_system text s))).
Proof.
  destruct s as [mode instructions h]. cbn [thinking_mode conversation_history].
  intros -> Hh. destruct h as [|first rest]; [congruence|].
  unfold cmd_clear, cmd_system. cbn.
  repeat split; intros E; symmetry in E;
    now apply thinking_instruction_differs in E.
Qed.

Lemma clear_drops_thinking_instruction_witness :
  (thinking_mode (cmd_clear (initial_session true "Be brief.")) = true
   /\ conversation_history (cmd_clear (initial_session true "Be brief."))
      = [{| role := "system";
            content := system_instructions (initial_session true "Be brief.") |}]
   /\ system_instructions (initial_session true "Be brief.")
      <> system_prompt_for
           (thinking_mode (cmd_clear (initial_session true "Be brief.")))
           (system_instructions (cmd_clear (initial_session true "Be brief."))))
  /\ (thinking_mode (cmd_system "Be kind." (initial_session true "Be brief."))
      = true
      /\ hd_error (conversation_history
                     (cmd_system "Be kind." (initial_session true "Be brief.")))
         = Some {| role := "system"; content := "Be kind." |}
      /\ tl (conversation_history
               (cmd_system "Be kind." (initial_session true "Be brief.")))
         = tl (conversation_history (initial_session true "Be brief."))
      /\ "Be kind."
         <> system_prompt_for
              (thinking_mode
                 (cmd_system "Be kind." (initial_session true "Be brief.")))
              (system_instructions
                 (cmd_system "Be kind." (initial_session true "Be brief.")))).
Proof.
  apply (clear_drops_thinking_instruction
           (initial_session true "Be brief.") "Be kind.").
  - reflexivity.
  - discriminate.
Defined.

End CommandSpec.

(* ------------------------------------------------------------------ *)
(** ** Counters and the successful turn *)

Module AccountingSpec.
Import Json Chat ChatLoop ContextWindowFacts StreamFacts TurnFacts.

(** X16.  The prompt counter takes the estimate of every message before
    the request is sent and keeps it: after a failed turn, and after a turn
    answered with a usage summary, the prompt and completion counters
    together run ahead of the total by the estimate (plus whatever the
    summary's own total leaves out); only a turn counted by estimate leaves
    the three counters in step. *)
Theorem prompt_estimate_is_kept
        (count_tokens : string -> string -> Z)
        (user_input message_content : string)
        (entry : string * Z) (entries : usage) (c : counters) :
  let estimate := count_tokens user_input "cl100k_base" in
  let info := entry :: entries in
  let reported :=
    usage_get "prompt_tokens" 0 info + usage_get "completion_tokens" 0 info in
  counter_gap (account count_tokens user_input None c)
  = counter_gap c + estimate
  /\ counter_gap (account count_tokens user_input
                          (Some (message_content, None)) c)
     = counter_gap c
  /\ counter_gap (account count_tokens user_input
                          (Some (message_content, Some [])) c)
     = counter_gap c
  /\ counter_gap (account count_tokens user_input
                          (Some (message_content, Some info)) c)
     = counter_gap c + estimate
       + (reported - usage_get "total_tokens" reported info)
  /\ total_prompt_tokens (account count_tokens user_input
                                  (Some (message_content, Some info)) c)
     = total_prompt_tokens c + estimate + usage_get "prompt_tokens" 0 info.
Proof.
  cbv zeta. unfold counter_gap, account. cbn.
  repeat split; lia.
Qed.

(** X17.  A turn answered with status 200 always appends the answer: when
    the history with the new message is within the budget, the loop holds
    the old history, the user message and an assistant message with the
    content [stream_response] returned, which is never empty. *)
Theorem answered_turn_appends
        (count_tokens : string -> string -> Z)
        (json_loads : string -> option json)
        (thinking_mode : bool) (max_tokens : Z) (model_name : string)
        (previous_thinking : string)
        (h : list message) (user_input : string) (lines : list string) :
  history_tokens count_tokens model_name
                 (h ++ [{| role := "user"; content := user_input |}])
  <= max_tokens ->
  let answer :=
    cleaned_content
      (stream_response json_loads lines thinking_mode previous_thinking) in
  send_message count_tokens json_loads thinking_mode max_tokens model_name
               previous_thinking h user_input (Response 200 lines)
  = (h ++ [{| role := "user"; content := user_input |};
           {| role := "assistant"; content := answer |}])%list
  /\ PyStr.truthy answer = true.
Proof.
  intros Hfit. cbv zeta.
  assert (Ht : PyStr.truthy
                 (cleaned_content
                    (stream_response json_loads lines thinking_mode
                                     previous_thinking)) = true).
  { unfold stream_response. rewrite cleaned_from_full.
    apply or_greeting_truthy. }
  split; [|exact Ht].
  unfold send_message.
  destruct (appended_cons h {| role := "user"; content := user_input |})
    as (first & rest & Happ).
  rewrite Happ in Hfit |- *.
  rewrite (within_budget_unchanged _ _ _ _ _ Hfit).
  change (200 =? 200) with true. cbn iota. rewrite Ht.
  rewrite pop_appended_assistant, <- Happ, <- app_assoc. reflexivity.
Qed.

Lemma answered_turn_appends_witness :
  let answer :=
    cleaned_content (stream_response (fun _ => None) ["data: [DONE]"] false "") in
  send_message Utils.heuristic_count_tokens (fun _ => None) false 8000
               "cl100k_base" "" Examples.short_history "hello"
               (Response 200 ["data: [DONE]"])
  = (Examples.short_history
       ++ [{| role := "user"; content := "hello" |};
           {| role := "assistant"; content := answer |}])%list
  /\ PyStr.truthy answer = true.
Proof.
  apply (answered_turn_appends
           Utils.heuristic_count_tokens (fun _ => None) false 8000
           "cl100k_base" "" Examples.short_history "hello" ["data: [DONE]"]).
  vm_compute. discriminate.
Defined.

End AccountingSpec.

(* ------------------------------------------------------------------ *)
(** ** config.py, the stored key *)

Module ConfigStoreSpec.
Import Json Config ConfigStore.

Lemma truthy_nonempty (s : string) : s <> EmptyString -> PyStr.truthy s = true.
Proof. destruct s; [congruence | reflexivity]. Qed.

Lemma toy_b64_round_trip (b : bytes) :
  toy_b64decode (toy_b64encode b) = Some b.
Proof.
  unfold toy_b64decode, toy_b64encode.
  now rewrite list_byte_of_string_of_list_byte.
Qed.

Lemma toy_utf8_round_trip (s : string) :
  (fun b => Some (string_of_list_byte b)) (list_byte_of_string s) = Some s.
Proof. cbv beta. now rewrite string_of_list_byte_of_string. Qed.

Section Stored.
Variable entropy : Type.
Variable fernet_generate_key : entropy -> bytes.
Variable fernet_valid_key : bytes -> bool.
Variable fernet_encrypt : bytes -> entropy -> bytes -> bytes.
Variable fernet_decrypt : bytes -> bytes -> option bytes.
Variable str_encode : string -> bytes.
Variable bytes_decode : bytes -> option string.
Variable b64encode : bytes -> string.
Variable b64decode : string -> option bytes.

Local Abbreviation save :=
  (save_api_key entropy fernet_generate_key fernet_valid_key fernet_encrypt
                str_encode b64encode).
Local Abbreviation load :=
  (load_api_key entropy fernet_generate_key fernet_valid_key fernet_decrypt
                bytes_decode b64decode).

(** The master key a save uses: the one of the key file, or a new one. *)
Lemma master_key_valid (key_file : option bytes) (e : entropy) :
  (forall e, fernet_valid_key (fernet_generate_key e) = true) ->
  (forall key, key_file = Some key -> fernet_valid_key key = true) ->
  fernet_valid_key
    (fst (get_or_create_master_key entropy fernet_generate_key key_file e))
  = true.
Proof.
  intros Hgen Hfile. destruct key_file as [key|]; simpl.
  - now apply Hfile.
  - apply Hgen.
Qed.

(** X18.  A key saved while the environment variable is not set is the key
    a later [load_config] returns, whatever the environment holds by then:
    under the contract of Fernet, UTF-8 and base64 (a generated key is
    accepted, decrypting inverts encrypting under one key, decoding inverts
    encoding), for every non-empty key, with no key file or with one whose
    key Fernet accepts, [save_config] writes an encrypted entry, and
    [load_config] on that entry and the key file the save left gives the
    key back and leaves the key file as it is. *)
Theorem saved_key_is_loaded :
  (forall e, fernet_valid_key (fernet_generate_key e) = true) ->
  (forall key e data,
      fernet_valid_key key = true ->
      fernet_decrypt key (fernet_encrypt key e data) = Some data) ->
  (forall s, bytes_decode (str_encode s) = Some s) ->
  (forall b, b64decode (b64encode b) = Some b) ->
  forall (api_key : string) (key_file : option bytes)
         (e_key e_token e_load : entropy) (env_later : option string),
    api_key <> EmptyString ->
    (forall key, key_file = Some key -> fernet_valid_key key = true) ->
    let saved := save None (Some api_key) key_file e_key e_token in
    (exists token,
        fst saved = Assign "OPENROUTER_API_KEY_ENCRYPTED" (Some token))
    /\ load env_later (as_section (fst saved)) (snd saved) e_load
       = (Some api_key, snd saved).
Proof.
  intros Hgen Hround Hutf8 Hb64 api_key key_file e_key e_token e_load
         env_later Hne Hfile.
  pose proof (master_key_valid key_file e_key Hgen Hfile) as Hvalid.
  cbv zeta. unfold save_api_key. rewrite (truthy_nonempty _ Hne).
  destruct (get_or_create_master_key entropy fernet_generate_key key_file e_key)
    as [master_key key_file'] eqn:Emaster.
  assert (Hfile' : key_file' = Some master_key).
  { destruct key_file; simpl in Emaster; inversion Emaster; reflexivity. }
  simpl in Hvalid. unfold encrypt_api_key. rewrite Hvalid.
  cbn [fst snd as_section]. split; [eexists; reflexivity|].
  unfold load_api_key. cbn [lookup]. rewrite String.eqb_refl.
  rewrite Hb64. subst key_file'. cbn [get_or_create_master_key].
  unfold decrypt_api_key, decrypt_body.
  rewrite Hvalid, Hround, Hutf8 by exact Hvalid.
  now rewrite (truthy_nonempty _ Hne).
Qed.

(** X19.  With the environment variable not set and a non-empty key,
    [save_config] writes the key in plaintext exactly when the key file
    holds a key that Fernet rejects (the file is read back without any
    check); the key file is then left as it is.  A generated key being
    accepted is the only thing assumed of Fernet. *)
Theorem plaintext_iff_key_file_rejected :
  (forall e, fernet_valid_key (fernet_generate_key e) = true) ->
  forall (api_key : string) (key_file : option bytes) (e_key e_token : entropy),
    api_key <> EmptyString ->
    (save None (Some api_key) key_file e_key e_token
     = (Assign "OPENROUTER_API_KEY" (Some api_key), key_file))
    <-> (exists key, key_file = Some key /\ fernet_valid_key key = false).
Proof.
  intros Hgen api_key key_file e_key e_token Hne.
  unfold save_api_key. rewrite (truthy_nonempty _ Hne).
  destruct key_file as [key|]; cbn [get_or_create_master_key];
    unfold encrypt_api_key, generate_key.
  - destruct (fernet_valid_key key) eqn:Ev.
    + split; [discriminate|]. intros [k [Hk Hv]]. inversion Hk; subst. congruence.
    + split; [intros _; eauto | reflexivity].
  - rewrite Hgen. split; [discriminate|]. intros [k [Hk _]]. discriminate.
Qed.

(** X20.  When the key file is lost after a save, the stored key cannot be
    read any more: [load_config] creates a new master key, the decryption
    under it fails, and the key of the environment (or none) is returned
    instead, without an exception.  Assumed of Fernet: a generated key is
    accepted and a token does not decrypt under another key. *)
Theorem lost_key_file_falls_back :
  (forall e, fernet_valid_key (fernet_generate_key e) = true) ->
  (forall key other e data,
      fernet_valid_key key = true -> fernet_valid_key other = true ->
      other <> key ->
      fernet_decrypt other (fernet_encrypt key e data) = None) ->
  (forall b, b64decode (b64encode b) = Some b) ->
  forall (api_key : string) (e_key e_token e_load : entropy)
         (env_later : option string),
    api_key <> EmptyString ->
    fernet_generate_key e_load <> fernet_generate_key e_key ->
    let saved := save None (Some api_key) None e_key e_token in
    load env_later (as_section (fst saved)) None e_load
    = (env_later, Some (fernet_generate_key e_load)).
Proof.
  intros Hgen Hreject Hb64 api_key e_key e_token e_load env_later Hne Hother.
  cbv zeta. unfold save_api_key. rewrite (truthy_nonempty _ Hne).
  cbn [get_or_create_master_key]. unfold encrypt_api_key, generate_key.
  rewrite Hgen. cbn [fst as_section].
  unfold load_api_key. cbn [lookup]. rewrite String.eqb_refl.
  rewrite Hb64. cbn [get_or_create_master_key]. unfold generate_key.
  unfold decrypt_api_key, decrypt_body.
  rewrite Hgen, Hreject by (apply Hgen || exact Hother). reflexivity.
Qed.

(** While the environment variable is set, [save_config] writes no
    [API] section at all and does not touch the key file, whatever key the
    session holds. *)
Lemma env_key_is_not_stored (value : string) (api_key : option string)
      (key_file : option bytes) (e_key e_token : entropy) :
  save (Some value) api_key key_file e_key e_token = (Unset, key_file).
Proof. reflexivity. Qed.

End Stored.

Lemma saved_key_is_loaded_witness :
  let saved :=
    save_api_key Byte.byte toy_generate_key toy_valid_key toy_encrypt
                 list_byte_of_string toy_b64encode
                 None (Some "sk-or-v1-0123456789abcdef") None
                 Byte.x01 Byte.x00 in
  (exists token,
      fst saved = Assign "OPENROUTER_API_KEY_ENCRYPTED" (Some token))
  /\ load_api_key Byte.byte toy_generate_key toy_valid_key toy_decrypt
                  (fun b => Some (string_of_list_byte b)) toy_b64decode
                  (Some "sk-or-v1-from-the-environment")
                  (as_section (fst saved)) (snd saved) Byte.x02
     = (Some "sk-or-v1-0123456789abcdef", snd saved).
Proof.
  apply (saved_key_is_loaded
           Byte.byte toy_generate_key toy_valid_key toy_encrypt toy_decrypt
           list_byte_of_string (fun b => Some (string_of_list_byte b))
           toy_b64encode toy_b64decode).
  - reflexivity.
  - apply ConfigSpec.toy_round_trip.
  - apply toy_utf8_round_trip.
  - apply toy_b64_round_trip.
  - discriminate.
  - discriminate.
Defined.

Lemma plaintext_iff_key_file_rejected_witness :
  (save_api_key Byte.byte toy_generate_key toy_valid_key toy_encrypt
                list_byte_of_string toy_b64encode
                None (Some "sk-or-v1-0123456789abcdef") (Some [])
                Byte.x01 Byte.x00
   = (Assign "OPENROUTER_API_KEY" (Some "sk-or-v1-0123456789abcdef"), Some []))
  <-> (exists key, Some [] = Some key /\ toy_valid_key key = false).
Proof.
  apply (plaintext_iff_key_file_rejected
           Byte.byte toy_generate_key toy_valid_key toy_encrypt
           list_byte_of_string toy_b64encode).
  - reflexivity.
  - discriminate.
Defined.

Lemma lost_key_file_falls_back_witness :
  let saved :=
    save_api_key Byte.byte toy_generate_key toy_valid_key toy_encrypt
                 list_byte_of_string toy_b64encode
                 None (Some "sk-or-v1-0123456789abcdef") None
                 Byte.x01 Byte.x00 in
  load_api_key Byte.byte toy_generate_key toy_valid_key toy_decrypt
               (fun b => Some (string_of_list_byte b)) toy_b64decode
               None (as_section (fst saved)) None Byte.x02
  = (None, Some (toy_generate_key Byte.x02)).
Proof.
  apply (lost_key_file_falls_back
           Byte.byte toy_generate_key toy_valid_key toy_encrypt toy_decrypt
           list_byte_of_string (fun b => Some (string_of_list_byte b))
           toy_b64encode toy_b64decode).
  - reflexivity.
  - apply ConfigSpec.toy_rejects.
  - apply toy_b64_round_trip.
  - discriminate.
  - discriminate.
Defined.

(** X21.  [secure_input_api_key] returns the typed key exactly when it has
    at least 20 characters, and nothing otherwise (also when the input is
    interrupted); a key that does not start with [sk-or-] is warned about
    but still accepted. *)
Theorem secure_input_accepts (typed : option string) (api_key : string) :
  secure_input_api_key typed = Some api_key
  <-> typed = Some api_key /\ 20 <= Z.of_nat (String.length api_key).
Proof.
  unfold secure_input_api_key, validate_api_key_format.
  destruct typed as [t|]; [|split; [discriminate | intros [H _]; discriminate]].
  destruct (negb (PyStr.truthy t) || (Z.of_nat (String.length t) <? 20)) eqn:E;
    cbn [fst].
  - split; [discriminate|]. intros [Ht Hlen]. inversion Ht; subst t.
    apply orb_true_iff in E. destruct E as [E|E].
    + destruct api_key; [simpl in Hlen; lia | discriminate].
    + apply Z.ltb_lt in E. lia.
  - apply orb_false_iff in E. destruct E as [_ E]. apply Z.ltb_ge in E.
    split.
    + intros H. inversion H; subst. split; [reflexivity | exact E].
    + intros [H _]. exact H.
Qed.

End ConfigStoreSpec.

(* ------------------------------------------------------------------ *)
(** ** api_client.py, the catalogue *)

Module ApiCatalogueSpec.
Import Json ApiClient ApiCatalogue.

Lemma is_str_true (key : string) (x : json) :
  is_str key x = true <-> x = JStr key.
Proof.
  destruct x; simpl; try (split; [discriminate | intros H; discriminate]).
  split.
  - intros H. apply String.eqb_eq in H. now subst.
  - intros H. inversion H. apply String.eqb_refl.
Qed.

Section Filter.
Variable pyfloat : Type.
Variable py_float : json -> result pyfloat.
Variable float_is_zero : pyfloat -> bool.

Local Abbreviation keep_model' := (keep_model pyfloat py_float float_is_zero).
Local Abbreviation filter_models' := (filter_models pyfloat py_float float_is_zero).
Local Abbreviation kept' := (kept pyfloat py_float float_is_zero).

(** The loop returns the records it keeps, in order, when no record
    raises. *)
Lemma filter_models_ok (capability_filter : string) (models : list json) :
  (forall m, In m models -> exists keep, keep_model' capability_filter m = Ok keep) ->
  filter_models' capability_filter models
  = Ok (filter (kept' capability_filter) models).
Proof.
  induction models as [|model rest IH]; intros Hok; [reflexivity|].
  cbn [filter_models filter]. unfold kept at 1.
  destruct (Hok model (or_introl eq_refl)) as [keep ->]. cbn [bind].
  rewrite IH by (intros m Hm; apply Hok; now right). reflexivity.
Qed.

(** The loop raises as soon as one record does. *)
Lemma filter_models_raises (capability_filter : string) (models : list json)
      (model : json) (e : exn) :
  In model models ->
  keep_model' capability_filter model = Raise e ->
  exists e', filter_models' capability_filter models = Raise e'.
Proof.
  induction models as [|m rest IH]; intros Hin Hraise; [destruct Hin|].
  cbn [filter_models].
  destruct (keep_model' capability_filter m) as [keep|e0] eqn:Ekeep;
    [|eexists; reflexivity].
  cbn [bind]. destruct Hin as [-> | Hin]; [congruence|].
  destruct (IH Hin Hraise) as [e' ->]. eexists; reflexivity.
Qed.

(** X22.  For a capability other than [all], when every record of the
    catalogue can be examined (no look-up on it raises),
    [get_models_by_capability] returns exactly the records the capability
    test keeps, in the order of the catalogue; the standard catalogue plays
    no part. *)
Theorem capability_filter_result
        (capability_filter : string) (enhanced_models available_models : list json) :
  capability_filter <> "all" ->
  (forall m, In m enhanced_models ->
             exists keep, keep_model' capability_filter m = Ok keep) ->
  get_models_by_capability pyfloat py_float float_is_zero
                           enhanced_models available_models capability_filter
  = filter (kept' capability_filter) enhanced_models.
Proof.
  intros Hall Hok. unfold get_models_by_capability.
  apply String.eqb_neq in Hall. rewrite Hall.
  now rewrite filter_models_ok.
Qed.

(** X23.  For a capability other than [all], one record on which the
    capability test raises (a price [float] rejects, an endpoint that is no
    dict, ...) makes [get_models_by_capability] give up the filtering: it
    returns the whole standard catalogue, unfiltered. *)
Theorem malformed_record_gives_catalogue
        (capability_filter : string) (enhanced_models available_models : list json)
        (model : json) (e : exn) :
  capability_filter <> "all" ->
  In model enhanced_models ->
  keep_model' capability_filter model = Raise e ->
  get_models_by_capability pyfloat py_float float_is_zero
                           enhanced_models available_models capability_filter
  = available_models.
Proof.
  intros Hall Hin Hraise. unfold get_models_by_capability.
  apply String.eqb_neq in Hall. rewrite Hall.
  destruct (filter_models_raises _ _ _ _ Hin Hraise) as [e' ->]. reflexivity.
Qed.

(** X24.  A capability name that is none of [all], [reasoning],
    [multipart], [tools] and [free] selects nothing: on a catalogue of
    dicts and nulls [get_models_by_capability] returns the empty list. *)
Theorem unknown_capability_selects_nothing
        (capability_filter : string) (enhanced_models available_models : list json) :
  capability_filter <> "all" -> capability_filter <> "reasoning" ->
  capability_filter <> "multipart" -> capability_filter <> "tools" ->
  capability_filter <> "free" ->
  (forall m, In m enhanced_models -> m = JNull \/ exists fields, m = JObj fields) ->
  get_models_by_capability pyfloat py_float float_is_zero
                           enhanced_models available_models capability_filter
  = [].
Proof.
  intros Hall Hr Hm Ht Hf Hshape.
  assert (Hkeep : forall m, In m enhanced_models ->
                            keep_model' capability_filter m = Ok false).
  { intros m Hin. unfold keep_model.
    destruct (Hshape m Hin) as [-> | [fields ->]]; [reflexivity|].
    cbn [is_none py_get bind].
    destruct (is_none _); [reflexivity|].
    apply String.eqb_neq in Hr, Hm, Ht, Hf. now rewrite Hr, Hm, Ht, Hf. }
  rewrite capability_filter_result; [|exact Hall|].
  - clear Hshape. induction enhanced_models as [|m rest IH]; [reflexivity|].
    cbn [filter]. unfold kept at 1.
    rewrite (Hkeep m (or_introl eq_refl)).
    apply IH. intros x Hx. apply Hkeep. now right.
  - intros m Hin. exists false. now apply Hkeep.
Qed.

End Filter.

Lemma capability_filter_result_witness :
  get_models_by_capability Z toy_float (Z.eqb 0)
                           [paid_model; free_model; JNull] [paid_model] "free"
  = filter (kept Z toy_float (Z.eqb 0) "free") [paid_model; free_model; JNull].
Proof.
  apply (capability_filter_result Z toy_float (Z.eqb 0)).
  - discriminate.
  - intros m [<- | [<- | [<- | []]]]; eexists; vm_compute; reflexivity.
Defined.

Lemma malformed_record_gives_catalogue_witness :
  get_models_by_capability Z toy_float (Z.eqb 0)
                           [free_model; unpriced_model] [paid_model; free_model]
                           "free"
  = [paid_model; free_model].
Proof.
  apply (malformed_record_gives_catalogue
           Z toy_float (Z.eqb 0) "free" _ _ unpriced_model ValueError).
  - discriminate.
  - right. left. reflexivity.
  - vm_compute. reflexivity.
Defined.

Lemma unknown_capability_selects_nothing_witness :
  get_models_by_capability Z toy_float (Z.eqb 0)
                           [free_model; paid_model; JNull] [paid_model] "vision"
  = [].
Proof.
  apply (unknown_capability_selects_nothing Z toy_float (Z.eqb 0));
    try discriminate.
  intros m [<- | [<- | [<- | []]]];
    [right; eexists; reflexivity | right; eexists; reflexivity | now left].
Defined.

(** What [find_model] returns when it returns. *)
Lemma find_model_found (model_id : string) (models : list json) (model : json) :
  find_model model_id models = Ok (Some model) <->
  exists before after,
    models = (before ++ model :: after)%list
    /\ py_getitem "id" model = Ok (JStr model_id)
    /\ forall x, In x before ->
                 exists id, py_getitem "id" x = Ok id /\ id <> JStr model_id.
Proof.
  induction models as [|m rest IH].
  - split; [discriminate|]. intros (before & after & H & _).
    destruct before; discriminate.
  - cbn [find_model]. split.
    + destruct (py_getitem "id" m) as [id|e] eqn:Eid; [|discriminate].
      cbn [bind]. destruct (is_str model_id id) eqn:Estr.
      * intros H. inversion H; subst m. apply is_str_true in Estr. subst id.
        exists [], rest. repeat split; [exact Eid|]. intros x [].
      * intros H. apply IH in H. destruct H as (before & after & -> & Hid & Hbefore).
        exists (m :: before), after. split; [reflexivity|]. split; [exact Hid|].
        intros x [<- | Hx]; [|now apply Hbefore].
        exists id. split; [exact Eid|]. intros ->.
        assert (is_str model_id (JStr model_id) = true) by now apply is_str_true.
        congruence.
    + intros (before & after & Hmodels & Hid & Hbefore).
      destruct before as [|b before]; cbn in Hmodels; inversion Hmodels; subst.
      * rewrite Hid. cbn [bind].
        now rewrite (proj2 (is_str_true model_id _) eq_refl).
      * destruct (Hbefore b (or_introl eq_refl)) as (id & -> & Hne).
        cbn [bind]. destruct (is_str model_id id) eqn:Estr.
        { apply is_str_true in Estr. contradiction. }
        apply IH. exists before, after. split; [reflexivity|].
        split; [exact Hid|]. intros x Hx. apply Hbefore. now right.
Qed.

(** X25.  [get_model_info] returns a record exactly when that record is
    the first one whose [id] is the asked one and every record before it
    has an [id] as well: a record without [id] (or a null) in front of the
    match turns the answer into [None]. *)
Theorem get_model_info_first_match
        (models : list json) (model_id : string) (model : json) :
  get_model_info models model_id = Some model <->
  exists before after,
    models = (before ++ model :: after)%list
    /\ py_getitem "id" model = Ok (JStr model_id)
    /\ forall x, In x before ->
                 exists id, py_getitem "id" x = Ok id /\ id <> JStr model_id.
Proof.
  rewrite <- find_model_found. unfold get_model_info.
  destruct (find_model model_id models) as [[found|]|e].
  - split; intros H; inversion H; reflexivity.
  - split; discriminate.
  - split; discriminate.
Qed.

(** [key_eqb] is symmetric and transitive. *)
Lemma key_eqb_trans (a b c : json) :
  key_eqb a b = true -> key_eqb c a = key_eqb c b.
Proof.
  destruct a as [|x|n|s|?|?], b as [|y|m|t|?|?]; simpl; try discriminate;
    intros H; destruct c as [|z|k|u|?|?]; simpl; try reflexivity.
  all: try (apply Bool.eqb_prop in H; subst; reflexivity).
  all: try (apply Z.eqb_eq in H; subst; try reflexivity).
  all: try (apply String.eqb_eq in H; subst; reflexivity).
  all: try (destruct x, y, z; simpl in *; congruence).
  all: try (destruct x, z; simpl; reflexivity).
  all: try (destruct y, z; simpl; reflexivity).
  all: try (destruct x; simpl; reflexivity).
  all: try (destruct y; simpl; reflexivity).
  all: try (destruct x, y; simpl in *; apply Z.eqb_eq in H; subst; reflexivity).
Qed.

Lemma key_eqb_sym (a b : json) : key_eqb a b = key_eqb b a.
Proof.
  destruct a as [|x|n|s|?|?], b as [|y|m|t|?|?]; simpl; try reflexivity.
  - destruct x, y; reflexivity.
  - apply Z.eqb_sym.
  - apply Z.eqb_sym.
  - apply Z.eqb_sym.
  - apply String.eqb_sym.
Qed.

Lemma bucket_append_spec (group model key : json) (d : buckets) :
  bucket key (bucket_append group model d)
  = if key_eqb group key then extend (bucket key d) [model] else bucket key d.
Proof.
  induction d as [|[k models] rest IH]; cbn [bucket_append bucket].
  - destruct (key_eqb group key); reflexivity.
  - destruct (key_eqb k group) eqn:Ekg; cbn [bucket].
    + rewrite (key_eqb_sym group key), <- (key_eqb_trans _ _ key Ekg),
        (key_eqb_sym key k).
      destruct (key_eqb k key); reflexivity.
    + destruct (key_eqb k key) eqn:Ekk; [|exact IH].
      destruct (key_eqb group key) eqn:Egk; [|reflexivity].
      rewrite key_eqb_sym in Egk.
      rewrite (key_eqb_trans _ _ k Egk) in Ekk. congruence.
Qed.

Lemma extend_extend (old : option (list json)) (model : json) (new : list json) :
  extend (extend old [model]) new = extend old (model :: new).
Proof.
  destruct old as [models|]; simpl.
  - now rewrite <- app_assoc.
  - reflexivity.
Qed.

Lemma group_loop_spec (models : list json) (groups groups' : buckets) (key : json) :
  group_loop groups models = Ok groups' ->
  bucket key groups' = extend (bucket key groups) (filter (in_group key) models).
Proof.
  revert groups. induction models as [|model rest IH]; intros groups.
  - intros H. inversion H; subst. cbn [filter].
    destruct (bucket key groups'); simpl; [now rewrite app_nil_r | reflexivity].
  - cbn [group_loop filter].
    destruct model as [|b|n|s|items|fields]; cbn [is_none py_get bind];
      try discriminate.
    + intros H. now apply IH.
    + unfold in_group at 1. cbn [py_get].
      set (group := match assoc "group" fields with
                    | Some v => v | None => JStr "Other" end).
      unfold py_bucket_append. destruct (hashable group); [|discriminate].
      cbn [bind]. intros H. rewrite (IH _ H), bucket_append_spec.
      destruct (key_eqb group key); [|reflexivity]. apply extend_extend.
Qed.

(** X26.  [get_models_by_group] lists every dict of the catalogue under
    its group, and under no other: when every record is null or a dict
    whose group (default [Other]) can be a dict key, the list found under a
    key is the list of the records of that group, in catalogue order, and
    a key with no record is absent. *)
Theorem group_lists_its_models (enhanced_models : list json) (key : json) :
  (forall m, In m enhanced_models ->
             m = JNull
             \/ exists fields group,
                 m = JObj fields
                 /\ py_get "group" (JStr "Other") m = Ok group
                 /\ hashable group = true) ->
  bucket key (get_models_by_group enhanced_models)
  = match filter (in_group key) enhanced_models with
    | [] => None
    | listed => Some listed
    end.
Proof.
  intros Hshape. unfold get_models_by_group.
  assert (Hok : forall groups, exists groups',
               group_loop groups enhanced_models = Ok groups').
  { induction enhanced_models as [|m rest IH]; intros groups;
      [eexists; reflexivity|].
    cbn [group_loop].
    destruct (Hshape m (or_introl eq_refl)) as [-> | (fields & group & -> & Hg & Hh)].
    - cbn [is_none]. apply IH. intros x Hx. apply Hshape. now right.
    - cbn [is_none]. rewrite Hg. cbn [bind]. unfold py_bucket_append.
      rewrite Hh. cbn [bind]. apply IH. intros x Hx. apply Hshape. now right. }
  destruct (Hok []) as [groups' Hloop]. rewrite Hloop.
  rewrite (group_loop_spec _ _ _ key Hloop). cbn [bucket].
  destruct (filter (in_group key) enhanced_models); reflexivity.
Qed.

Lemma group_lists_its_models_witness :
  bucket (JStr "Other") (get_models_by_group [free_model; JNull; paid_model])
  = match filter (in_group (JStr "Other")) [free_model; JNull; paid_model] with
    | [] => None
    | listed => Some listed
    end.
Proof.
  apply (group_lists_its_models [free_model; JNull; paid_model] (JStr "Other")).
  intros m [<- | [<- | [<- | []]]]; [right | now left | right];
    do 2 eexists; (split; [reflexivity | split; reflexivity]).
Defined.

End ApiCatalogueSpec.

(* ------------------------------------------------------------------ *)
(** ** api_client.py, providers; main.py, recommendations *)

Module ProviderSpec.
Import Json ApiClient ApiCatalogue.

Lemma provider_loop_spec (models : list json) (providers providers' : buckets)
      (key : json) :
  provider_loop providers models = Ok providers' ->
  bucket key providers'
  = extend (bucket key providers) (filter (in_provider key) models).
Proof.
  revert providers. induction models as [|model rest IH]; intros providers.
  - intros H. inversion H; subst. cbn [filter].
    destruct (bucket key providers'); simpl; [now rewrite app_nil_r | reflexivity].
  - cbn [provider_loop filter].
    destruct model as [|b|n|s|items|fields]; cbn [is_none py_get bind];
      try discriminate.
    + intros H. now apply IH.
    + unfold in_provider at 1. cbn [py_get].
      set (endpoint := match assoc "endpoint" fields with
                       | Some v => v | None => JObj [] end).
      destruct (is_none endpoint); [now apply IH|].
      destruct (py_get "provider_name" (JStr "Unknown") endpoint)
        as [provider|e]; [|discriminate].
      cbn [bind]. unfold py_bucket_append.
      destruct (hashable provider); [|discriminate].
      cbn [bind]. intros H.
      rewrite (IH _ H), ApiCatalogueSpec.bucket_append_spec.
      destruct (key_eqb provider key); [|reflexivity].
      apply ApiCatalogueSpec.extend_extend.
Qed.

(** X27.  [get_models_by_provider] lists every dict of the catalogue that
    has an endpoint under the provider name of that endpoint (default
    [Unknown]) and under no other, in catalogue order; a record whose
    endpoint is null is listed nowhere.  Assumed: every record is null or a
    dict whose endpoint is null or a dict with a provider name that can be
    a dict key. *)
Theorem provider_lists_its_models (enhanced_models : list json) (key : json) :
  (forall m, In m enhanced_models ->
             m = JNull
             \/ exists fields endpoint,
                 m = JObj fields
                 /\ py_get "endpoint" (JObj []) m = Ok endpoint
                 /\ (endpoint = JNull
                     \/ exists provider,
                         py_get "provider_name" (JStr "Unknown") endpoint
                         = Ok provider
                         /\ hashable provider = true)) ->
  bucket key (get_models_by_provider enhanced_models)
  = match filter (in_provider key) enhanced_models with
    | [] => None
    | listed => Some listed
    end.
Proof.
  intros Hshape. unfold get_models_by_provider.
  assert (Hok : forall providers, exists providers',
               provider_loop providers enhanced_models = Ok providers').
  { induction enhanced_models as [|m rest IH]; intros providers;
      [eexists; reflexivity|].
    assert (Hrest : forall x, In x rest ->
                x = JNull
                \/ exists fields endpoint,
                    x = JObj fields
                    /\ py_get "endpoint" (JObj []) x = Ok endpoint
                    /\ (endpoint = JNull
                        \/ exists provider,
                            py_get "provider_name" (JStr "Unknown") endpoint
                            = Ok provider
                            /\ hashable provider = true)).
    { intros x Hx. apply Hshape. now right. }
    cbn [provider_loop].
    destruct (Hshape m (or_introl eq_refl))
      as [-> | (fields & endpoint & -> & He & Hend)].
    - cbn [is_none]. now apply IH.
    - cbn [is_none]. rewrite He. cbn [bind].
      destruct Hend as [-> | (provider & Hp & Hh)].
      + cbn [is_none]. now apply IH.
      + destruct (is_none endpoint); [now apply IH|].
        rewrite Hp. cbn [bind]. unfold py_bucket_append. rewrite Hh.
        cbn [bind]. now apply IH. }
  destruct (Hok []) as [providers' Hloop]. rewrite Hloop.
  rewrite (provider_loop_spec _ _ _ key Hloop). cbn [bucket].
  destruct (filter (in_provider key) enhanced_models); reflexivity.
Qed.

Lemma provider_lists_its_models_witness :
  bucket (JStr "Unknown")
         (get_models_by_provider
            [free_model; JNull; JObj [("endpoint", JNull)]; paid_model])
  = match filter (in_provider (JStr "Unknown"))
                 [free_model; JNull; JObj [("endpoint", JNull)]; paid_model] with
    | [] => None
    | listed => Some listed
    end.
Proof.
  apply (provider_lists_its_models
           [free_model; JNull; JObj [("endpoint", JNull)]; paid_model]
           (JStr "Unknown")).
  intros m [<- | [<- | [<- | [<- | []]]]].
  - right. do 2 eexists. split; [reflexivity|]. split; [reflexivity|].
    right. eexists. split; reflexivity.
  - now left.
  - right. do 2 eexists. split; [reflexivity|]. split; [reflexivity|].
    now left.
  - right. do 2 eexists. split; [reflexivity|]. split; [reflexivity|].
    right. eexists. split; reflexivity.
Defined.

End ProviderSpec.

Module MainSpec.
Import Json Main.

Lemma recommends_selected (patterns : list string) (budget : option string)
      (model : json) :
  has_id model ->
  recommends patterns budget model = Ok (selected patterns budget model).
Proof.
  intros (fields & s & -> & Hid).
  unfold recommends, selected, id_of. cbn [py_get py_getitem bind].
  rewrite Hid. cbn [bind].
  destruct (matches_task patterns (PyText.lower s)); [|reflexivity].
  destruct (budget_is_free budget); reflexivity.
Qed.

Lemma recommend_loop_filter (patterns : list string) (budget : option string)
      (models : list json) :
  (forall m, In m models -> has_id m) ->
  recommend_loop patterns budget models
  = Ok (filter (selected patterns budget) models).
Proof.
  induction models as [|model rest IH]; intros Hids; [reflexivity|].
  cbn [recommend_loop filter].
  rewrite recommends_selected by (apply Hids; now left). cbn [bind].
  rewrite IH by (intros m Hm; apply Hids; now right). reflexivity.
Qed.

Lemma recommendations_spec (all_models : list json)
      (task_categories : list (string * list string))
      (task : string) (budget : option string) :
  task <> EmptyString ->
  (forall m, In m all_models -> has_id m) ->
  get_model_recommendations all_models task_categories (Some task) budget
  = Ok (py_or (filter (selected (patterns_of task task_categories) budget)
                      all_models)
              all_models).
Proof.
  intros Htask Hids. unfold get_model_recommendations.
  destruct task; [congruence|]. cbn [PyStr.truthy negb]. cbv zeta.
  rewrite recommend_loop_filter by assumption. reflexivity.
Qed.

(** X28.  For a task and a catalogue whose records all have a string id,
    [get_model_recommendations] returns the records whose lower-cased id
    contains one of the task's patterns (and, with budget [free], whose id
    contains [:free]), in catalogue order; when there is none, it returns
    the whole catalogue instead. *)
Theorem recommendations_are_matches_or_catalogue
        (all_models : list json)
        (task_categories : list (string * list string))
        (task : string) (budget : option string) :
  task <> EmptyString ->
  (forall m, In m all_models -> has_id m) ->
  get_model_recommendations all_models task_categories (Some task) budget
  = Ok (py_or (filter (selected (patterns_of task task_categories) budget)
                      all_models)
              all_models).
Proof. apply recommendations_spec. Qed.

(** X29.  The budget [free] is no guarantee: when no record of the
    catalogue has [:free] in its id, [get_model_recommendations] with
    budget [free] returns the whole catalogue, for every task. *)
Theorem free_budget_without_free_models
        (all_models : list json)
        (task_categories : list (string * list string)) (task : string) :
  task <> EmptyString ->
  (forall m, In m all_models -> has_id m) ->
  (forall m, In m all_models -> PyStr.contains ":free" (id_of m) = false) ->
  get_model_recommendations all_models task_categories (Some task) (Some "free")
  = Ok all_models.
Proof.
  intros Htask Hids Hpaid. rewrite recommendations_spec by assumption.
  replace (filter _ all_models) with (@nil json); [reflexivity|].
  symmetry. clear Hids. induction all_models as [|m rest IH]; [reflexivity|].
  cbn [filter]. unfold selected at 1.
  rewrite (Hpaid m (or_introl eq_refl)). cbn [budget_is_free String.eqb].
  change (String.eqb "free" "free") with true. cbn [negb orb].
  rewrite andb_false_r. apply IH. intros x Hx. apply Hpaid. now right.
Qed.

Lemma recommendations_are_matches_or_catalogue_witness :
  get_model_recommendations [gpt4_model; mistral_model] fallback_categories
                            (Some "coding") None
  = Ok (py_or (filter (selected (patterns_of "coding" fallback_categories)
                                None)
                      [gpt4_model; mistral_model])
              [gpt4_model; mistral_model]).
Proof.
  apply (recommendations_are_matches_or_catalogue
           [gpt4_model; mistral_model] fallback_categories "coding" None).
  - discriminate.
  - intros m [<- | [<- | []]]; do 2 eexists; split; reflexivity.
Defined.

Lemma free_budget_without_free_models_witness :
  get_model_recommendations [gpt4_model; mistral_model] fallback_categories
                            (Some "coding") (Some "free")
  = Ok [gpt4_model; mistral_model].
Proof.
  apply (free_budget_without_free_models
           [gpt4_model; mistral_model] fallback_categories "coding").
  - discriminate.
  - intros m [<- | [<- | []]]; do 2 eexists; split; reflexivity.
  - intros m [<- | [<- | []]]; vm_compute; reflexivity.
Defined.

End MainSpec.
